(** * Currency converter (script.js): a shallow embedding and its properties

    The page script keeps its state in a few globals ([ratesCache],
    [updateIntervalId], [autoUpdateEnabled], [lastUpdateTime]), in DOM
    elements and in one [localStorage] key.  Every function of the script
    becomes a function on an explicit application state; what the browser
    supplies (clock readings, timer handles, network responses) is an
    argument or part of that state.

    JavaScript numbers are IEEE 754 binary64 values, taken from the
    Standard Library's [SpecFloat]; the built-ins the script calls
    ([parseFloat], [String.prototype.trim], [Number.prototype.toFixed],
    [isNaN], the JSON round trip of [localStorage]) are written out after
    ECMA-262.

    What the embedding takes from the environment:
    - the page runs one handler at a time; an [async] function runs up to
      its first [await] and resumes in a later turn;
    - timer handles are the positive integers, in the order the timers
      are created; when a timer fires is for the environment to decide;
    - the [rates] of a response, when it has any, is an object of
      numbers, and currency codes name its own properties;
    - [localStorage] holds what the script stored, and storing does not
      fail;
    - console output and focus are left out; the About dialog, which shares
      no state with the rest, has a state of its own. *)

From Stdlib Require Import ZArith NArith List String Ascii Bool Lia.
From Stdlib Require Import SpecFloat DecimalString.
From stdpp Require Import base option list gmap strings.

Local Open Scope string_scope.
Local Open Scope Z_scope.

(** ** JavaScript numbers *)

Module Num.

Definition prec : Z := 53.
Definition emax : Z := 1024.

Abbreviation number := spec_float.

Definition nan : number := S754_nan.
Definition zero : number := S754_zero false.
Definition infinity : number := S754_infinity false.

Definition mul : number -> number -> number := SFmul prec emax.
(** [x <= y], [x < y] and [x === y] on numbers: false as soon as one
    side is NaN, and the two zeros are equal. *)
Definition leb : number -> number -> bool := SFleb.
Definition ltb : number -> number -> bool := SFltb.
Definition strict_eq : number -> number -> bool := SFeqb.

Definition isNaN (x : number) : bool :=
  match x with S754_nan => true | _ => false end.

Definition isFinite (x : number) : bool :=
  match x with S754_zero _ | S754_finite _ _ _ => true | _ => false end.

(** ToBoolean on a number: [+0], [-0] and [NaN] are falsy. *)
Definition truthy (x : number) : bool :=
  match x with S754_zero _ | S754_nan => false | _ => true end.

(** The number nearest to the integer [n] (ties to even). *)
Definition of_Z (n : Z) : number := binary_normalize prec emax n 0 false.

(** The number nearest to [(-1)^neg * m * 10^e] (ties to even): the
    value of a decimal literal. *)
Definition of_decimal (neg : bool) (m : N) (e : Z) : number :=
  match m with
  | N0 => S754_zero neg
  | Npos p =>
      if 0 <=? e then
        binary_normalize prec emax
          (if neg then Z.neg p * 10 ^ e else Z.pos p * 10 ^ e) 0 neg
      else
        let '(q, e', l) :=
          SFdiv_core_binary prec emax (Z.pos p) 0 (10 ^ (- e)) 0 in
        binary_round_aux prec emax neg q e' l
  end.

(** The exact value of a finite number, as a fraction [num / den] of its
    absolute value, [den] a power of two. *)
Definition abs_num (m : positive) (e : Z) : Z := Z.pos m * 2 ^ Z.max e 0.
Definition abs_den (e : Z) : Z := 2 ^ Z.max (- e) 0.

End Num.

Export Num(number).

(** ** Strings and the number/string built-ins

    A string is a sequence of code units; Rocq's [string] gives the code
    units 0..255, which cover every character the script itself writes and
    every character of a numeric literal. *)

Module Str.

Definition code (c : ascii) : N := N_of_ascii c.

(** WhiteSpace and LineTerminator code units (TAB, LF, VT, FF, CR, SP,
    NBSP): what [trim] strips and [parseFloat] skips. *)
Definition isWhiteSpace (c : ascii) : bool :=
  let n := code c in
  ((9 <=? n) && (n <=? 13) || (n =? 32) || (n =? 160))%N.

Fixpoint trimStart (s : string) : string :=
  match s with
  | String c r => if isWhiteSpace c then trimStart r else s
  | EmptyString => EmptyString
  end.

Fixpoint trimEnd (s : string) : string :=
  match s with
  | String c r =>
      match trimEnd r with
      | EmptyString => if isWhiteSpace c then EmptyString else String c EmptyString
      | r' => String c r'
      end
  | EmptyString => EmptyString
  end.

(** [s.trim()] *)
Definition trim (s : string) : string := trimEnd (trimStart s).

(** [s === ''] *)
Definition isEmpty (s : string) : bool :=
  match s with EmptyString => true | _ => false end.

Definition isDigit (c : ascii) : bool :=
  let n := code c in ((48 <=? n) && (n <=? 57))%N.

(** Reads the longest run of decimal digits at the head of [s],
    continuing the value [acc]: the value, the count of digits read and
    the rest of the string. *)
Fixpoint readDigits (s : string) (acc : N) (cnt : nat) : N * nat * string :=
  match s with
  | String c r =>
      if isDigit c then readDigits r (acc * 10 + (code c - 48))%N (S cnt)
      else (acc, cnt, s)
  | EmptyString => (acc, cnt, s)
  end.

(** ExponentPart of a StrDecimalLiteral at the head of [s]; 0 when the
    longest literal prefix has none. *)
Definition readExponent (s : string) : Z :=
  match s with
  | String c r =>
      if (code c =? 101)%N || (code c =? 69)%N then
        let '(neg, r') :=
          match r with
          | String "-" r' => (true, r')
          | String "+" r' => (false, r')
          | _ => (false, r)
          end in
        let '(v, cnt, _) := readDigits r' 0%N 0%nat in
        match cnt with
        | O => 0
        | _ => if neg then - Z.of_N v else Z.of_N v
        end
      else 0
  | EmptyString => 0
  end.

(** [parseFloat(s)]: leading white space is skipped, the longest prefix
    that is a StrDecimalLiteral is read and rounded to the nearest number
    (correctly rounded whatever the count of digits, as engines do); [NaN]
    when there is no such prefix. *)
Definition parseFloat (s : string) : number :=
  let t := trimStart s in
  let '(neg, t1) :=
    match t with
    | String "-" r => (true, r)
    | String "+" r => (false, r)
    | _ => (false, t)
    end in
  if String.prefix "Infinity" t1 then S754_infinity neg
  else
    let '(ip, ni, t2) := readDigits t1 0%N 0%nat in
    let '(m, nf, t3) :=
      match t2 with
      | String "." r => readDigits r ip 0%nat
      | _ => (ip, 0%nat, t2)
      end in
    match (ni + nf)%nat with
    | O => Num.nan
    | _ => Num.of_decimal neg m (readExponent t3 - Z.of_nat nf)
    end.

(** Decimal digits of a natural number ("0" for zero). *)
Definition digits (n : N) : string := NilEmpty.string_of_uint (N.to_uint n).

Fixpoint zeros (k : nat) : string :=
  match k with O => "" | S k' => String "0" (zeros k') end.

(** Steps 11.b-11.c of [Number.prototype.toFixed]: the digits of [n]
    with a decimal point before the last [f] of them, left-padded with
    zeros to [f + 1] digits. *)
Definition fixedPoint (f : nat) (n : N) : string :=
  let m := digits n in
  match f with
  | O => m
  | _ =>
      let m := zeros (S f - String.length m) ++ m in
      let k := String.length m in
      substring 0 (k - f) m ++ "." ++ substring (k - f) f m
  end.

(** The integer [n] for which [n / 10^f - num/den] is as close to zero as
    possible, the larger one when there are two. *)
Definition nearestScaled (f : nat) (num den : Z) : Z :=
  (2 * num * 10 ^ Z.of_nat f + den) / (2 * den).

(** *** Number::toString for integral values of at least [10^21] *)

Definition sameNumber (x y : number) : bool :=
  match x, y with
  | S754_finite sx mx ex, S754_finite sy my ey =>
      Bool.eqb sx sy && (mx =? my)%positive && (ex =? ey)
  | _, _ => false
  end.

(** The candidates [(s, n)] with [k] digits next to the integer [v] of
    [d] digits: [s * 10^(n-k)] is [v] rounded down or up to [k]
    digits. *)
Definition candidates (v d k : Z) : list (Z * Z) :=
  let p := 10 ^ (d - k) in
  let lo := v / p in
  let up := if lo + 1 =? 10 ^ k then (10 ^ (k - 1), d + 1) else (lo + 1, d) in
  if v mod p =? 0 then [(lo, d)]
  else if 2 * (v mod p) <? p then [(lo, d); up]
  else if p <? 2 * (v mod p) then [up; (lo, d)]
  else if Z.even lo then [(lo, d); up] else [up; (lo, d)].

(** The shortest [s] (of [k] digits) and [n] with [s * 10^(n-k)]
    rounding to [x], the closest to [x] among those of that length. *)
Fixpoint shortest (x : number) (v d : Z) (k : Z) (fuel : nat) : Z * Z * Z :=
  match fuel with
  | O => (v, d, d)
  | S fuel' =>
      match List.filter (fun '(s, n) => sameNumber (Num.of_Z (s * 10 ^ (n - k))) x)
              (candidates v d k) with
      | (s, n) :: _ => (s, n, k)
      | [] => shortest x v d (k + 1) fuel'
      end
  end.

(** [Number::toString(x)] for a positive finite [x = m * 2^e] with
    [x >= 10^21]: exponential notation. *)
Definition toStringLarge (m : positive) (e : Z) : string :=
  let v := Num.abs_num m e in
  let d := Z.of_nat (String.length (digits (Z.to_N v))) in
  let '(s, n, k) := shortest (S754_finite false m e) v d 1 (Z.to_nat d) in
  let ds := digits (Z.to_N s) in
  match ds with
  | String c EmptyString => String c ("e+" ++ digits (Z.to_N (n - 1)))
  | String c r => String c ("." ++ r ++ "e+" ++ digits (Z.to_N (n - 1)))
  | EmptyString => ""
  end.

(** [x.toFixed(f)] for [0 <= f <= 100]. *)
Definition toFixed (x : number) (f : nat) : string :=
  match x with
  | S754_nan => "NaN"
  | S754_infinity s => if s then "-Infinity" else "Infinity"
  | S754_zero _ => fixedPoint f 0
  | S754_finite s m e =>
      let num := Num.abs_num m e in
      let den := Num.abs_den e in
      (if s then "-" else "") ++
      (if 10 ^ 21 * den <=? num then toStringLarge m e
       else fixedPoint f (Z.to_N (nearestScaled f num den)))
  end.

(** [`${n}`] for an integer [n] below [10^21] in absolute value. *)
Definition ofInteger (n : Z) : string :=
  match n with
  | Zneg p => "-" ++ digits (Npos p)
  | _ => digits (Z.to_N n)
  end.

End Str.

(** ** Application state *)

(** An entry of the history array.  [e_amount] is [None] for the [null]
    that a non-finite number becomes in JSON. *)
Record HistoryEntry := mkEntry {
  e_id : Z;
  e_fromCurr : string;
  e_toCurr : string;
  e_amount : option number;
  e_converted : string;
  e_timestamp : string
}.

(** [ratesCache]: [Rates r] for an object whose properties are numbers
    (the documented format of the [rates] field), [NoRates] for the
    [undefined] or [null] left by a response without usable [rates];
    reading a property of [NoRates] throws.  Currency codes are looked up
    among the object's own properties. *)
Inductive Cache :=
  | NoRates
  | Rates (r : gmap string number).

(** What [historyList] shows. *)
Inductive HistoryView :=
  | HistoryText (s : string)
  | HistoryItems (l : list HistoryEntry).

(** The callbacks the script hands to [setInterval] and [setTimeout]. *)
Inductive Callback :=
  | UpdateStatusCb      (* updateStatus *)
  | AutoUpdateCb        (* the arrow function of startAutoUpdate *)
  | StopPulseCb.        (* the arrow function that ends the pulse of statusDot *)

(** A live timer: its callback, its delay in ms, and whether it repeats
    ([setInterval]) or fires once ([setTimeout]). *)
Record Timer := mkTimer {
  callback : Callback;
  delay : Z;
  repeating : bool
}.

Record App := mkApp {
  amount_value : string;  (* [amount.value] *)
  fromCurrency_value : string;  (* [fromCurrency.value] *)
  toCurrency_value : string;  (* [toCurrency.value] *)
  amountError_textContent : string;
  amountError_show : bool;  (* class [show] on [amountError] *)
  resultAmount_textContent : string;
  exchangeRate_textContent : string;
  realtimeStatus_textContent : string;
  resultContainer_show : bool;  (* class [show] on [resultContainer] *)
  lastUpdated_textContent : string;
  statusDot_updating : bool;  (* class [updating] on [statusDot] *)
  toggleAutoUpdate_textContent : string;
  toggleAutoUpdate_active : bool;  (* class [active] on [toggleAutoUpdate] *)
  historyList : HistoryView;
  deleteAllBtn_display : string;  (* [deleteAllBtn.style.display] *)
  updateIntervalId : option N;  (* [null] or a timer handle *)
  autoUpdateEnabled : bool;
  ratesCache : Cache;
  lastUpdateTime : option Z;  (* [null] or a time value in ms *)
  conversionHistory : option (list HistoryEntry);  (* [localStorage] item *)
  timers : gmap N Timer;  (* the live timers, by handle *)
  nextHandle : N;  (* the handle the next timer gets *)
  pending : list string;  (* URLs of the requests in flight *)
  errorsShown : list string  (* trace of the [showError] calls *)
}.

(** Assignments to the fields, one function per group of fields that the
    script writes together. *)

Definition set_amount_value (v : string) (a : App) : App :=
  mkApp v (fromCurrency_value a) (toCurrency_value a)
    (amountError_textContent a) (amountError_show a)
    (resultAmount_textContent a) (exchangeRate_textContent a)
    (realtimeStatus_textContent a) (resultContainer_show a)
    (lastUpdated_textContent a) (statusDot_updating a)
    (toggleAutoUpdate_textContent a) (toggleAutoUpdate_active a)
    (historyList a) (deleteAllBtn_display a) (updateIntervalId a)
    (autoUpdateEnabled a) (ratesCache a) (lastUpdateTime a)
    (conversionHistory a) (timers a) (nextHandle a) (pending a)
    (errorsShown a).

Definition set_currencies (v0 : string) (v1 : string) (a : App) : App :=
  mkApp (amount_value a) v0 v1 (amountError_textContent a)
    (amountError_show a) (resultAmount_textContent a)
    (exchangeRate_textContent a) (realtimeStatus_textContent a)
    (resultContainer_show a) (lastUpdated_textContent a)
    (statusDot_updating a) (toggleAutoUpdate_textContent a)
    (toggleAutoUpdate_active a) (historyList a) (deleteAllBtn_display a)
    (updateIntervalId a) (autoUpdateEnabled a) (ratesCache a)
    (lastUpdateTime a) (conversionHistory a) (timers a) (nextHandle a)
    (pending a) (errorsShown a).

Definition set_amountError (v0 : string) (v1 : bool) (a : App) : App :=
  mkApp (amount_value a) (fromCurrency_value a) (toCurrency_value a) v0 v1
    (resultAmount_textContent a) (exchangeRate_textContent a)
    (realtimeStatus_textContent a) (resultContainer_show a)
    (lastUpdated_textContent a) (statusDot_updating a)
    (toggleAutoUpdate_textContent a) (toggleAutoUpdate_active a)
    (historyList a) (deleteAllBtn_display a) (updateIntervalId a)
    (autoUpdateEnabled a) (ratesCache a) (lastUpdateTime a)
    (conversionHistory a) (timers a) (nextHandle a) (pending a)
    (errorsShown a).

Definition set_amountError_show (v : bool) (a : App) : App :=
  mkApp (amount_value a) (fromCurrency_value a) (toCurrency_value a)
    (amountError_textContent a) v (resultAmount_textContent a)
    (exchangeRate_textContent a) (realtimeStatus_textContent a)
    (resultContainer_show a) (lastUpdated_textContent a)
    (statusDot_updating a) (toggleAutoUpdate_textContent a)
    (toggleAutoUpdate_active a) (historyList a) (deleteAllBtn_display a)
    (updateIntervalId a) (autoUpdateEnabled a) (ratesCache a)
    (lastUpdateTime a) (conversionHistory a) (timers a) (nextHandle a)
    (pending a) (errorsShown a).

Definition set_result (v0 : string) (v1 : string) (v2 : string) (v3 : bool) (a : App) : App :=
  mkApp (amount_value a) (fromCurrency_value a) (toCurrency_value a)
    (amountError_textContent a) (amountError_show a) v0 v1 v2 v3
    (lastUpdated_textContent a) (statusDot_updating a)
    (toggleAutoUpdate_textContent a) (toggleAutoUpdate_active a)
    (historyList a) (deleteAllBtn_display a) (updateIntervalId a)
    (autoUpdateEnabled a) (ratesCache a) (lastUpdateTime a)
    (conversionHistory a) (timers a) (nextHandle a) (pending a)
    (errorsShown a).

Definition set_resultContainer_show (v : bool) (a : App) : App :=
  mkApp (amount_value a) (fromCurrency_value a) (toCurrency_value a)
    (amountError_textContent a) (amountError_show a)
    (resultAmount_textContent a) (exchangeRate_textContent a)
    (realtimeStatus_textContent a) v (lastUpdated_textContent a)
    (statusDot_updating a) (toggleAutoUpdate_textContent a)
    (toggleAutoUpdate_active a) (historyList a) (deleteAllBtn_display a)
    (updateIntervalId a) (autoUpdateEnabled a) (ratesCache a)
    (lastUpdateTime a) (conversionHistory a) (timers a) (nextHandle a)
    (pending a) (errorsShown a).

Definition set_lastUpdated_textContent (v : string) (a : App) : App :=
  mkApp (amount_value a) (fromCurrency_value a) (toCurrency_value a)
    (amountError_textContent a) (amountError_show a)
    (resultAmount_textContent a) (exchangeRate_textContent a)
    (realtimeStatus_textContent a) (resultContainer_show a) v
    (statusDot_updating a) (toggleAutoUpdate_textContent a)
    (toggleAutoUpdate_active a) (historyList a) (deleteAllBtn_display a)
    (updateIntervalId a) (autoUpdateEnabled a) (ratesCache a)
    (lastUpdateTime a) (conversionHistory a) (timers a) (nextHandle a)
    (pending a) (errorsShown a).

Definition set_statusDot_updating (v : bool) (a : App) : App :=
  mkApp (amount_value a) (fromCurrency_value a) (toCurrency_value a)
    (amountError_textContent a) (amountError_show a)
    (resultAmount_textContent a) (exchangeRate_textContent a)
    (realtimeStatus_textContent a) (resultContainer_show a)
    (lastUpdated_textContent a) v (toggleAutoUpdate_textContent a)
    (toggleAutoUpdate_active a) (historyList a) (deleteAllBtn_display a)
    (updateIntervalId a) (autoUpdateEnabled a) (ratesCache a)
    (lastUpdateTime a) (conversionHistory a) (timers a) (nextHandle a)
    (pending a) (errorsShown a).

Definition set_toggleAutoUpdate (v0 : string) (v1 : bool) (a : App) : App :=
  mkApp (amount_value a) (fromCurrency_value a) (toCurrency_value a)
    (amountError_textContent a) (amountError_show a)
    (resultAmount_textContent a) (exchangeRate_textContent a)
    (realtimeStatus_textContent a) (resultContainer_show a)
    (lastUpdated_textContent a) (statusDot_updating a) v0 v1 (historyList a)
    (deleteAllBtn_display a) (updateIntervalId a) (autoUpdateEnabled a)
    (ratesCache a) (lastUpdateTime a) (conversionHistory a) (timers a)
    (nextHandle a) (pending a) (errorsShown a).

Definition set_historyList (v0 : HistoryView) (v1 : string) (a : App) : App :=
  mkApp (amount_value a) (fromCurrency_value a) (toCurrency_value a)
    (amountError_textContent a) (amountError_show a)
    (resultAmount_textContent a) (exchangeRate_textContent a)
    (realtimeStatus_textContent a) (resultContainer_show a)
    (lastUpdated_textContent a) (statusDot_updating a)
    (toggleAutoUpdate_textContent a) (toggleAutoUpdate_active a) v0 v1
    (updateIntervalId a) (autoUpdateEnabled a) (ratesCache a)
    (lastUpdateTime a) (conversionHistory a) (timers a) (nextHandle a)
    (pending a) (errorsShown a).

Definition set_updateIntervalId (v : option N) (a : App) : App :=
  mkApp (amount_value a) (fromCurrency_value a) (toCurrency_value a)
    (amountError_textContent a) (amountError_show a)
    (resultAmount_textContent a) (exchangeRate_textContent a)
    (realtimeStatus_textContent a) (resultContainer_show a)
    (lastUpdated_textContent a) (statusDot_updating a)
    (toggleAutoUpdate_textContent a) (toggleAutoUpdate_active a)
    (historyList a) (deleteAllBtn_display a) v (autoUpdateEnabled a)
    (ratesCache a) (lastUpdateTime a) (conversionHistory a) (timers a)
    (nextHandle a) (pending a) (errorsShown a).

Definition set_autoUpdateEnabled (v : bool) (a : App) : App :=
  mkApp (amount_value a) (fromCurrency_value a) (toCurrency_value a)
    (amountError_textContent a) (amountError_show a)
    (resultAmount_textContent a) (exchangeRate_textContent a)
    (realtimeStatus_textContent a) (resultContainer_show a)
    (lastUpdated_textContent a) (statusDot_updating a)
    (toggleAutoUpdate_textContent a) (toggleAutoUpdate_active a)
    (historyList a) (deleteAllBtn_display a) (updateIntervalId a) v
    (ratesCache a) (lastUpdateTime a) (conversionHistory a) (timers a)
    (nextHandle a) (pending a) (errorsShown a).

Definition set_ratesCache (v : Cache) (a : App) : App :=
  mkApp (amount_value a) (fromCurrency_value a) (toCurrency_value a)
    (amountError_textContent a) (amountError_show a)
    (resultAmount_textContent a) (exchangeRate_textContent a)
    (realtimeStatus_textContent a) (resultContainer_show a)
    (lastUpdated_textContent a) (statusDot_updating a)
    (toggleAutoUpdate_textContent a) (toggleAutoUpdate_active a)
    (historyList a) (deleteAllBtn_display a) (updateIntervalId a)
    (autoUpdateEnabled a) v (lastUpdateTime a) (conversionHistory a)
    (timers a) (nextHandle a) (pending a) (errorsShown a).

Definition set_lastUpdateTime (v : option Z) (a : App) : App :=
  mkApp (amount_value a) (fromCurrency_value a) (toCurrency_value a)
    (amountError_textContent a) (amountError_show a)
    (resultAmount_textContent a) (exchangeRate_textContent a)
    (realtimeStatus_textContent a) (resultContainer_show a)
    (lastUpdated_textContent a) (statusDot_updating a)
    (toggleAutoUpdate_textContent a) (toggleAutoUpdate_active a)
    (historyList a) (deleteAllBtn_display a) (updateIntervalId a)
    (autoUpdateEnabled a) (ratesCache a) v (conversionHistory a) (timers a)
    (nextHandle a) (pending a) (errorsShown a).

Definition set_conversionHistory (v : option (list HistoryEntry)) (a : App) : App :=
  mkApp (amount_value a) (fromCurrency_value a) (toCurrency_value a)
    (amountError_textContent a) (amountError_show a)
    (resultAmount_textContent a) (exchangeRate_textContent a)
    (realtimeStatus_textContent a) (resultContainer_show a)
    (lastUpdated_textContent a) (statusDot_updating a)
    (toggleAutoUpdate_textContent a) (toggleAutoUpdate_active a)
    (historyList a) (deleteAllBtn_display a) (updateIntervalId a)
    (autoUpdateEnabled a) (ratesCache a) (lastUpdateTime a) v (timers a)
    (nextHandle a) (pending a) (errorsShown a).

Definition set_timers (v0 : gmap N Timer) (v1 : N) (a : App) : App :=
  mkApp (amount_value a) (fromCurrency_value a) (toCurrency_value a)
    (amountError_textContent a) (amountError_show a)
    (resultAmount_textContent a) (exchangeRate_textContent a)
    (realtimeStatus_textContent a) (resultContainer_show a)
    (lastUpdated_textContent a) (statusDot_updating a)
    (toggleAutoUpdate_textContent a) (toggleAutoUpdate_active a)
    (historyList a) (deleteAllBtn_display a) (updateIntervalId a)
    (autoUpdateEnabled a) (ratesCache a) (lastUpdateTime a)
    (conversionHistory a) v0 v1 (pending a) (errorsShown a).

Definition set_pending (v : list string) (a : App) : App :=
  mkApp (amount_value a) (fromCurrency_value a) (toCurrency_value a)
    (amountError_textContent a) (amountError_show a)
    (resultAmount_textContent a) (exchangeRate_textContent a)
    (realtimeStatus_textContent a) (resultContainer_show a)
    (lastUpdated_textContent a) (statusDot_updating a)
    (toggleAutoUpdate_textContent a) (toggleAutoUpdate_active a)
    (historyList a) (deleteAllBtn_display a) (updateIntervalId a)
    (autoUpdateEnabled a) (ratesCache a) (lastUpdateTime a)
    (conversionHistory a) (timers a) (nextHandle a) v (errorsShown a).

Definition set_errorsShown (v : list string) (a : App) : App :=
  mkApp (amount_value a) (fromCurrency_value a) (toCurrency_value a)
    (amountError_textContent a) (amountError_show a)
    (resultAmount_textContent a) (exchangeRate_textContent a)
    (realtimeStatus_textContent a) (resultContainer_show a)
    (lastUpdated_textContent a) (statusDot_updating a)
    (toggleAutoUpdate_textContent a) (toggleAutoUpdate_active a)
    (historyList a) (deleteAllBtn_display a) (updateIntervalId a)
    (autoUpdateEnabled a) (ratesCache a) (lastUpdateTime a)
    (conversionHistory a) (timers a) (nextHandle a) (pending a) v.

(** ** Global configuration *)

Definition API_URL : string := "https://api.exchangerate-api.com/v4/latest/".
Definition UPDATE_FREQUENCY : Z := 5000.

(** ** Browser services *)

(** JSON.parse(JSON.stringify(x)) on the [amount] of an entry: a
    non-finite number is written as [null], [-0] as [0]. *)
Definition jsonNumber (x : option number) : option number :=
  match x with
  | Some (S754_finite _ _ _) => x
  | Some (S754_zero _) => Some Num.zero
  | _ => None
  end.

Definition jsonEntry (e : HistoryEntry) : HistoryEntry :=
  mkEntry (e_id e) (e_fromCurr e) (e_toCurr e) (jsonNumber (e_amount e))
    (e_converted e) (e_timestamp e).

(** [JSON.parse(localStorage.getItem('conversionHistory')) || []].  The
    item is kept as the array that was handed to [JSON.stringify]; reading
    it back goes through the JSON round trip. *)
Definition getHistory (a : App) : list HistoryEntry :=
  match conversionHistory a with
  | Some l => map jsonEntry l
  | None => []
  end.

(** [localStorage.setItem('conversionHistory', JSON.stringify(history))] *)
Definition setHistory (history : list HistoryEntry) (a : App) : App :=
  set_conversionHistory (Some history) a.

(** A new timer gets the next handle. *)
Definition addTimer (t : Timer) (a : App) : N * App :=
  (nextHandle a,
   set_timers (<[nextHandle a := t]> (timers a)) (N.succ (nextHandle a)) a).

(** [setInterval(cb, ms)] and [setTimeout(cb, ms)] *)
Definition setInterval (cb : Callback) (ms : Z) (a : App) : N * App :=
  addTimer (mkTimer cb ms true) a.

Definition setTimeout (cb : Callback) (ms : Z) (a : App) : N * App :=
  addTimer (mkTimer cb ms false) a.

(** [clearInterval(h)] *)
Definition clearInterval (h : N) (a : App) : App :=
  set_timers (delete h (timers a)) (nextHandle a) a.

(** ** Validation *)

(** [lastEntry.amount === amt] *)
Definition amountEq (x : option number) (amt : number) : bool :=
  match x with
  | Some y => Num.strict_eq y amt
  | None => false
  end.

Definition showError (message : string) (a : App) : App :=
  set_errorsShown (errorsShown a ++ [message]) (set_amountError message true a).

Definition isValidAmount (a : App) : bool :=
  negb (Str.isEmpty (amount_value a))
  && negb (Num.isNaN (Str.parseFloat (amount_value a)))
  && Num.ltb Num.zero (Str.parseFloat (amount_value a)).

Definition validateInput (a : App) : bool * App :=
  let amountValue := Str.parseFloat (amount_value a) in
  if Str.isEmpty (Str.trim (amount_value a)) then
    (false, showError "Please enter an amount" a)
  else if Num.isNaN amountValue then
    (false, showError "Please enter a valid number" a)
  else if Num.leb amountValue Num.zero then
    (false, showError "Amount must be greater than 0" a)
  else (true, a).

(** ** Fetching rates *)

(** What the network answers to one [fetch]. *)
Inductive Body :=
  | NotJson                   (* response.json() rejects *)
  | JsonNull                  (* the body is the JSON text null *)
  | JsonData (rates : Cache). (* any other JSON value, with its [rates] *)

Inductive Outcome :=
  | Rejected                          (* fetch() rejects *)
  | Response (ok : bool) (body : Body).

Definition updateStatus (now : Z) (a : App) : App :=
  match lastUpdateTime a with
  | Some t =>
      let diffSeconds := (now - t) / 1000 in
      if diffSeconds <? 60 then
        set_lastUpdated_textContent
          ("Last updated: " ++ Str.ofInteger diffSeconds ++ "s ago") a
      else
        let diffMinutes := diffSeconds / 60 in
        set_lastUpdated_textContent
          ("Last updated: " ++ Str.ofInteger diffMinutes ++ "m ago") a
  | None => a
  end.

(** [fetchRatesOnce()] up to its first [await]: the request leaves and
    the call returns. *)
Definition fetchRatesOnce (a : App) : App :=
  let fromCurr := fromCurrency_value a in
  set_pending (pending a ++ [API_URL ++ fromCurr]) a.

Definition fetchFailed (a : App) : App :=
  showError "Failed to fetch rates. Please check your internet connection." a.

(** The rest of [fetchRatesOnce], run when the request settles with
    outcome [o]; [t] and [t'] are the two readings of the clock.  Nothing
    is written between the two [await]s, so they are one step here. *)
Definition fetchRatesOnce_resume (o : Outcome) (t t' : Z) (a : App) : App :=
  match o with
  | Rejected => fetchFailed a
  | Response false _ => fetchFailed a
  | Response true NotJson => fetchFailed a
  | Response true JsonNull => fetchFailed a
  | Response true (JsonData rates) =>
      updateStatus t' (set_lastUpdateTime (Some t) (set_ratesCache rates a))
  end.

(** ** History *)

Definition loadHistory (a : App) : App :=
  let history := getHistory a in
  match history with
  | [] => set_historyList (HistoryText "No conversions yet") "none" a
  | _ => set_historyList (HistoryItems history) "block" a
  end.

(** The test of [addToHistory] for a repetition of the most recent
    entry. *)
Definition isDuplicate (lastEntry : option HistoryEntry)
    (fromCurr toCurr : string) (amt : number) (converted : string) : bool :=
  match lastEntry with
  | Some e =>
      String.eqb (e_fromCurr e) fromCurr && String.eqb (e_toCurr e) toCurr
      && amountEq (e_amount e) amt && String.eqb (e_converted e) converted
  | None => false
  end.

(** [id] and [stamp] are [Date.now()] and [new Date().toLocaleString()]. *)
Definition addToHistory (fromCurr toCurr : string) (amt : number)
    (converted : string) (id : Z) (stamp : string) (a : App) : App :=
  let history := getHistory a in
  let lastEntry := head history in
  if isDuplicate lastEntry fromCurr toCurr amt converted then a
  else
    let entry := mkEntry id fromCurr toCurr (Some amt) converted stamp in
    let history := entry :: history in
    let history :=
      if (50 <? length history)%nat then take 50 history else history in
    loadHistory (setHistory history a).

Definition deleteHistoryItem (id : Z) (a : App) : App :=
  let history := getHistory a in
  let history := List.filter (fun entry => negb (e_id entry =? id)) history in
  loadHistory (setHistory history a).

Definition deleteAllHistory (confirmed : bool) (a : App) : App :=
  if confirmed then loadHistory (set_conversionHistory None a) else a.

(** ** Conversion *)

Definition displayResult (converted : string) (rate : number)
    (fromCurr toCurr : string) (amt : number) (a : App) : App :=
  set_result converted
    ("1 " ++ fromCurr ++ " = " ++ Str.toFixed rate 4 ++ " " ++ toCurr)
    "🟢 Real-time (Updated)" true a.

Definition conversionFailed (a : App) : App :=
  showError "Conversion failed. Please try again." a.

Definition performConversion (id : Z) (stamp : string) (a : App) : App :=
  let '(valid, a) := validateInput a in
  if negb valid then a
  else
    let fromCurr := fromCurrency_value a in
    let toCurr := toCurrency_value a in
    let amt := Str.parseFloat (amount_value a) in
    match ratesCache a with
    | NoRates => conversionFailed a          (* TypeError, caught *)
    | Rates r =>
        match r !! toCurr with
        | None => conversionFailed a         (* !undefined *)
        | Some rate =>
            if negb (Num.truthy rate) then conversionFailed a
            else
              let converted := Str.toFixed (Num.mul amt rate) 2 in
              let a := displayResult converted rate fromCurr toCurr amt a in
              addToHistory fromCurr toCurr amt converted id stamp a
        end
    end.

(** ** The real-time update system *)

(** [if (updateIntervalId)]: [null] and [0] are falsy. *)
Definition handleSet (h : option N) : option N :=
  match h with
  | Some 0%N => None
  | _ => h
  end.

Definition startAutoUpdate (a : App) : App :=
  let a :=
    match handleSet (updateIntervalId a) with
    | Some h => clearInterval h a
    | None => a
    end in
  let a := fetchRatesOnce a in
  let '(h, a) := setInterval AutoUpdateCb UPDATE_FREQUENCY a in
  set_updateIntervalId (Some h) a.

(** The callback of the interval armed by [startAutoUpdate]. *)
Definition autoUpdateTick (id : Z) (stamp : string) (a : App) : App :=
  if autoUpdateEnabled a then
    let a := set_statusDot_updating true a in
    let a := fetchRatesOnce a in
    let '(_, a) := setTimeout StopPulseCb 1000 a in
    if isValidAmount a then performConversion id stamp a else a
  else a.

Definition toggleAutoUpdateMode (a : App) : App :=
  let a := set_autoUpdateEnabled (negb (autoUpdateEnabled a)) a in
  let a :=
    set_toggleAutoUpdate
      (if autoUpdateEnabled a then "Auto-Update: ON" else "Auto-Update: OFF")
      (autoUpdateEnabled a) a in
  if autoUpdateEnabled a then startAutoUpdate a else a.

(** ** Form functions *)

Definition clearForm (a : App) : App :=
  set_amountError_show false (set_resultContainer_show false (set_amount_value "" a)).

Definition swapCurrencies (id : Z) (stamp : string) (a : App) : App :=
  let temp := fromCurrency_value a in
  let a := set_currencies (toCurrency_value a) temp a in
  let a := fetchRatesOnce a in
  if isValidAmount a then performConversion id stamp a else a.

(** ** Events

    The script runs one handler at a time, each to completion; a request
    in flight settles in a later turn.  [Clock] is what the handler reads
    from the clock: [Date.now()] or [new Date()], a second reading, and
    [new Date().toLocaleString()]. *)

Record Clock := mkClock { now : Z; now' : Z; localeString : string }.

Inductive Event :=
  | DOMContentLoaded
  | AmountInput (value : string) (c : Clock)
  | AmountEnter (c : Clock)
  | FromCurrencyChange (value : string) (c : Clock)
  | ToCurrencyChange (value : string) (c : Clock)
  | SwapClick (c : Clock)
  | ClearClick
  | DeleteAllClick (confirmed : bool)
  | DeleteClick (id : Z)
  | ToggleClick
  | TimerFires (h : N) (c : Clock)
  | FetchSettles (i : nat) (o : Outcome) (c : Clock)
  | BeforeUnload.

Definition convertIfValid (c : Clock) (a : App) : App :=
  if isValidAmount a then performConversion (now c) (localeString c) a else a.

(** The timer [h] fires, if it is live: a one-shot timer is spent, and
    the callback runs. *)
Definition fireTimer (h : N) (c : Clock) (a : App) : App :=
  match timers a !! h with
  | Some t =>
      let a := if repeating t then a else clearInterval h a in
      match callback t with
      | UpdateStatusCb => updateStatus (now c) a
      | AutoUpdateCb => autoUpdateTick (now c) (localeString c) a
      | StopPulseCb => set_statusDot_updating false a
      end
  | None => a
  end.

Definition settle (i : nat) (o : Outcome) (c : Clock) (a : App) : App :=
  match pending a !! i with
  | Some _ => fetchRatesOnce_resume o (now c) (now' c) (set_pending (delete i (pending a)) a)
  | None => a
  end.

Definition step (ev : Event) (a : App) : App :=
  match ev with
  | DOMContentLoaded => startAutoUpdate (fetchRatesOnce (loadHistory a))
  | AmountInput v c => convertIfValid c (set_amountError_show false (set_amount_value v a))
  | AmountEnter c => performConversion (now c) (localeString c) a
  | FromCurrencyChange v c => convertIfValid c (set_currencies v (toCurrency_value a) a)
  | ToCurrencyChange v c => convertIfValid c (set_currencies (fromCurrency_value a) v a)
  | SwapClick c => swapCurrencies (now c) (localeString c) a
  | ClearClick => clearForm a
  | DeleteAllClick confirmed => deleteAllHistory confirmed a
  | DeleteClick id => deleteHistoryItem id a
  | ToggleClick => toggleAutoUpdateMode a
  | TimerFires h c => fireTimer h c a
  | FetchSettles i o c => settle i o c a
  | BeforeUnload =>
      match handleSet (updateIntervalId a) with
      | Some h => clearInterval h a
      | None => a
      end
  end.

(** The state after the events [evs], oldest first. *)
Definition run (evs : list Event) (a : App) : App :=
  fold_left (fun a ev => step ev a) evs a.

(** The state once the script has been evaluated, before any event: the
    globals hold their initial values and the status interval is armed.
    [from], [to] and [stored] are what the page's form and [localStorage]
    hold at that time. *)
Definition scriptLoaded (from to : string) (stored : option (list HistoryEntry)) : App :=
  mkApp "" from to "" false "" "" "" false "" false "" false (HistoryText "") ""
    None true (Rates ∅) None stored
    {[1%N := mkTimer UpdateStatusCb 1000 true]} 2%N [] [].

(** ** The About dialog

    [openAboutModal], [closeAboutModal] and the Escape listener write the
    [show] class of the dialog and of its overlay and the scrolling of the
    page, which nothing else in the script reads or writes. *)

Record Dialog := mkDialog {
  aboutModal_show : bool;     (* class [show] on [aboutModal] *)
  modalOverlay_show : bool;   (* class [show] on [modalOverlay] *)
  body_overflow : string      (* [document.body.style.overflow] *)
}.

Definition openAboutModal (d : Dialog) : Dialog :=
  mkDialog true true "hidden".

Definition closeAboutModal (d : Dialog) : Dialog :=
  mkDialog false false "auto".

(** The [keydown] listener of the document. *)
Definition keydownListener (key : string) (d : Dialog) : Dialog :=
  if String.eqb key "Escape" && aboutModal_show d then closeAboutModal d else d.

(** Clicks on [aboutBtn]; on [closeAboutBtn], [closeAboutBtn2] or
    [modalOverlay]; and key presses. *)
Inductive DialogEvent :=
  | AboutClick
  | CloseClick
  | KeyDown (key : string).

Definition dialogStep (ev : DialogEvent) (d : Dialog) : Dialog :=
  match ev with
  | AboutClick => openAboutModal d
  | CloseClick => closeAboutModal d
  | KeyDown key => keydownListener key d
  end.

Definition dialogRun (evs : list DialogEvent) (d : Dialog) : Dialog :=
  fold_left (fun d ev => dialogStep ev d) evs d.

(** * Vocabulary of the properties *)

(** [text] is [p] rounded to hundredths: for a finite [p] below [10^21] in
    absolute value, the two-decimal rendering of the integer [n] nearest to
    [100 * |p|], the larger one at a tie, with the sign of [p]. *)
Definition roundedToHundredths (p : number) (text : string) : Prop :=
  match p with
  | S754_finite s m e =>
      let num := Num.abs_num m e in
      let den := Num.abs_den e in
      num < 10 ^ 21 * den ->
      exists n : Z,
        0 <= n /\ 2 * n * den <= 200 * num + den < 2 * (n + 1) * den /\
        text = (if s then "-" else "") ++ Str.fixedPoint 2 (Z.to_N n)
  | S754_zero _ => text = "0.00"
  | S754_infinity s => text = if s then "-Infinity" else "Infinity"
  | S754_nan => text = "NaN"
  end.

(** The rate [performConversion] finds for the target currency: [None]
    when the cache cannot be read or has no such property. *)
Definition lookupRate (a : App) : option number :=
  match ratesCache a with
  | NoRates => None
  | Rates r => r !! toCurrency_value a
  end.

(** A conversion succeeds when it shows no error: every failing path of
    [performConversion] ends in [showError]. *)
Definition conversionSucceeds (id : Z) (stamp : string) (a : App) : Prop :=
  errorsShown (performConversion id stamp a) = errorsShown a.

(** The rates a settled request delivers: [None] on the outcomes that
    end in the [catch] block (the endpoint is unreachable, the status is
    not a success, or the body is not JSON or is [null]). *)
Definition fetched (o : Outcome) : option Cache :=
  match o with
  | Response true (JsonData rates) => Some rates
  | _ => None
  end.

(** [onlyConversionFields a a']: the state [a'] differs from [a] at most
    in the error box and its trace, the result panel, the stored history
    and the history panel. *)
Definition onlyConversionFields (a a' : App) : Prop :=
  a' =
  set_conversionHistory (conversionHistory a')
    (set_historyList (historyList a') (deleteAllBtn_display a')
       (set_result (resultAmount_textContent a') (exchangeRate_textContent a')
          (realtimeStatus_textContent a') (resultContainer_show a')
          (set_errorsShown (errorsShown a')
             (set_amountError (amountError_textContent a')
                (amountError_show a') a)))).

(** The scheduler's part of the state. *)
Definition scheduler (a : App) : gmap N Timer * N * option N * bool * list string :=
  (timers a, nextHandle a, updateIntervalId a, autoUpdateEnabled a, pending a).

(** Handles are positive and below the next handle to be given out; the
    handle kept in [updateIntervalId] is such a handle too. *)
Definition timersWellFormed (a : App) : Prop :=
  (0 < nextHandle a)%N /\
  (forall h cb, timers a !! h = Some cb -> (0 < h < nextHandle a)%N) /\
  (forall h, updateIntervalId a = Some h -> (0 < h < nextHandle a)%N).

(** [sameTimers a a']: the timer table, the next handle and
    [updateIntervalId] are the same in both states. *)
Definition sameTimers (a a' : App) : Prop :=
  timers a' = timers a /\ nextHandle a' = nextHandle a /\
  updateIntervalId a' = updateIntervalId a.

(** ** Scenarios

    States of the page used to exercise the theorems: the freshly loaded
    page converting USD to EUR, with an amount typed in and one rate in the
    cache. *)

Definition page : App := scriptLoaded "USD" "EUR" None.

Definition withAmount (v : string) (a : App) : App := set_amount_value v a.

Definition withRate (code rate : string) (a : App) : App :=
  set_ratesCache (Rates {[ code := Str.parseFloat rate ]}) a.

Definition eurAt (rate : string) : Outcome :=
  Response true (JsonData (Rates {[ "EUR" := Str.parseFloat rate ]})).

Definition beforeTick : App :=
  run [DOMContentLoaded;
       FetchSettles 0 (eurAt "0.92") (mkClock 100 100 "12:00:00");
       FetchSettles 0 (eurAt "0.92") (mkClock 120 120 "12:00:00");
       AmountInput "100" (mkClock 2000 2000 "12:00:02")] page.

(** A full history: 50 stored conversions with ids 50 (the most recent)
    down to 1. *)
Definition fiftyEntries : list HistoryEntry :=
  map (fun i => mkEntry (Z.of_nat i) "USD" "EUR" (Some (Num.of_Z (Z.of_nat i)))
                  (Str.toFixed (Num.of_Z (Z.of_nat i)) 2) "12:00:00")
    (rev (seq 1 50)).

Definition fullPage : App := set_conversionHistory (Some fiftyEntries) page.

(** The three messages of [validateInput]. *)
Definition validationMessages : list string :=
  ["Please enter an amount"; "Please enter a valid number";
   "Amount must be greater than 0"].

(** The handlers that convert only after [isValidAmount] has accepted the
    amount: typing, changing a currency, swapping, and timers. *)
Definition guardedByIsValidAmount (ev : Event) : bool :=
  match ev with
  | AmountInput _ _ | FromCurrencyChange _ _ | ToCurrencyChange _ _
  | SwapClick _ | TimerFires _ _ => true
  | _ => false
  end.

(** Every live auto-update interval is the one whose handle
    [updateIntervalId] holds. *)
Definition oneAutoUpdate (a : App) : Prop :=
  forall h t, timers a !! h = Some t -> callback t = AutoUpdateCb ->
              updateIntervalId a = Some h.

(** The status interval armed when the script is evaluated is live under
    handle 1, and no later timer got a handle below 2. *)
Definition statusIntervalLive (a : App) : Prop :=
  timers a !! 1%N = Some (mkTimer UpdateStatusCb 1000 true) /\
  (2 <= nextHandle a)%N /\
  (forall h, updateIntervalId a = Some h -> (2 <= h)%N).

(** What every handler keeps of the timers. *)
Definition schedulerInvariant (a : App) : Prop :=
  oneAutoUpdate a /\ statusIntervalLive a.

(** The history panel shows what is stored: the entries, with the
    "delete all" button, or the placeholder text without it. *)
Definition panelShowsStorage (a : App) : Prop :=
  match getHistory a with
  | [] => historyList a = HistoryText "No conversions yet" /\
          deleteAllBtn_display a = "none"
  | l => historyList a = HistoryItems l /\ deleteAllBtn_display a = "block"
  end.

(** The dialog and its overlay are shown together, and the page cannot
    scroll exactly while they are. *)
Definition dialogCoherent (d : Dialog) : Prop :=
  modalOverlay_show d = aboutModal_show d /\
  (body_overflow d = "hidden" <-> aboutModal_show d = true).

(** * Properties *)

(** ** The built-ins on examples *)

Example parseFloat_examples :
  map Str.parseFloat ["100"; " 12.5e1 USD"; "-5"; ".5"; "abc"; ""; "1e999"] =
  [Num.of_Z 100; Num.of_Z 125; Num.of_Z (-5); Num.of_decimal false 5 (-1);
   Num.nan; Num.nan; Num.infinity].
Proof. vm_compute. reflexivity. Qed.

Example trim_examples :
  map Str.trim ["  12 "; "   "; ""; "a b"] = ["12"; ""; ""; "a b"].
Proof. vm_compute. reflexivity. Qed.

Example toFixed_examples :
  map (fun s => Str.toFixed (Str.parseFloat s) 2)
    ["92"; "1.005"; "0.125"; "-0.001"; "-0"; "123.456"; "1e21"; "-Infinity"] =
  ["92.00"; "1.00"; "0.13"; "-0.00"; "0.00"; "123.46"; "1e+21"; "-Infinity"].
Proof. vm_compute. reflexivity. Qed.

(** The product that is rounded is the binary64 product.  Here the exact
    product of the two numbers is [1/8 - 2^-107], below the tie, while the
    binary64 product is [1/8], which [toFixed] rounds up. *)
Example product_is_rounded_first :
  let amt := Str.parseFloat "1.0000000000000002" in
  let rate := Str.parseFloat "0.12499999999999997" in
  amt = S754_finite false (2 ^ 52 + 1) (-52) /\
  rate = S754_finite false (2 ^ 53 - 2) (-56) /\
  (2 ^ 52 + 1) * (2 ^ 53 - 2) < 2 ^ 105 /\
  Num.mul amt rate = Num.of_decimal false 125 (-3) /\
  Str.toFixed (Num.mul amt rate) 2 = "0.13".
Proof. vm_compute. repeat split. Qed.

(** ** Numbers and strings *)

Section NumberFacts.

Local Ltac by_cases x :=
  destruct x as [[]|[]| |[] ? ?]; cbv; congruence.

Lemma positive_not_NaN (x : number) :
  Num.ltb Num.zero x = true -> Num.isNaN x = false.
Proof. by_cases x. Qed.

Lemma positive_not_leb (x : number) :
  Num.ltb Num.zero x = true -> Num.leb x Num.zero = false.
Proof. by_cases x. Qed.

Lemma not_leb_positive (x : number) :
  Num.isNaN x = false -> Num.leb x Num.zero = false ->
  Num.ltb Num.zero x = true.
Proof. by_cases x. Qed.

(** A number that is less than or equal to zero is a zero, a negative
    finite number or minus infinity. *)
Lemma leb_zero_inv (x : number) :
  Num.leb x Num.zero = true ->
  match x with
  | S754_zero _ => True
  | S754_infinity s | S754_finite s _ _ => s = true
  | S754_nan => False
  end.
Proof. destruct x as [[]|[]| |[] ? ?]; cbv; congruence || trivial. Qed.

Lemma strict_eq_finite_refl (x : number) :
  Num.isFinite x = true -> Num.strict_eq x x = true.
Proof.
  destruct x as [s|s| |s m e]; simpl; try congruence; intros _.
  - reflexivity.
  - unfold Num.strict_eq, SFeqb, SFcompare.
    rewrite Z.compare_refl, Pos.compare_cont_refl. now destruct s.
Qed.

Lemma trimStart_head (s : string) :
  match Str.trimStart s with
  | String c _ => Str.isWhiteSpace c = false
  | EmptyString => True
  end.
Proof.
  induction s as [|c r IH]; simpl; [exact I|].
  destruct (Str.isWhiteSpace c) eqn:E; [exact IH | exact E].
Qed.

Lemma trimEnd_empty (s : string) :
  Str.trimEnd s = "" ->
  match s with String c _ => Str.isWhiteSpace c = true | EmptyString => True end.
Proof.
  destruct s as [|c r]; simpl; [trivial|].
  destruct (Str.trimEnd r); [|discriminate].
  destruct (Str.isWhiteSpace c); [trivial | discriminate].
Qed.

(** A blank string has no numeric prefix. *)
Lemma parseFloat_blank (s : string) :
  Str.trim s = "" -> Str.parseFloat s = Num.nan.
Proof.
  unfold Str.trim. intros H. apply trimEnd_empty in H.
  pose proof (trimStart_head s) as Hh.
  unfold Str.parseFloat.
  destruct (Str.trimStart s) as [|c r]; [reflexivity | congruence].
Qed.

Lemma nearestScaled_spec (f : nat) (num den : Z) :
  0 < den -> 0 <= num ->
  let n := Str.nearestScaled f num den in
  0 <= n /\
  2 * n * den <= 2 * num * 10 ^ Z.of_nat f + den < 2 * (n + 1) * den.
Proof.
  intros Hden Hnum n. subst n. unfold Str.nearestScaled.
  set (N := 2 * num * 10 ^ Z.of_nat f + den).
  assert (0 <= 10 ^ Z.of_nat f) by (apply Z.pow_nonneg; lia).
  assert (0 <= N) by (subst N; nia).
  pose proof (Z.mul_div_le N (2 * den) ltac:(lia)).
  pose proof (Z.mul_succ_div_gt N (2 * den) ltac:(lia)).
  split; [apply Z.div_pos; lia | lia].
Qed.

Lemma abs_den_pos (e : Z) : 0 < Num.abs_den e.
Proof. unfold Num.abs_den. apply Z.pow_pos_nonneg; lia. Qed.

Lemma abs_num_nonneg (m : positive) (e : Z) : 0 <= Num.abs_num m e.
Proof.
  unfold Num.abs_num.
  assert (0 < 2 ^ Z.max e 0) by (apply Z.pow_pos_nonneg; lia). lia.
Qed.

End NumberFacts.

Lemma toFixed_rounds (p : number) : roundedToHundredths p (Str.toFixed p 2).
Proof.
  destruct p as [s|s| |s m e]; try reflexivity.
  unfold roundedToHundredths, Str.toFixed. intros Hlt.
  destruct (Z.leb_spec (10 ^ 21 * Num.abs_den e) (Num.abs_num m e)); [lia|].
  exists (Str.nearestScaled 2 (Num.abs_num m e) (Num.abs_den e)).
  destruct (nearestScaled_spec 2 (Num.abs_num m e) (Num.abs_den e)
              (abs_den_pos e) (abs_num_nonneg m e)) as [Hn Hb].
  change (10 ^ Z.of_nat 2) with 100 in Hb.
  repeat split; try lia.
Qed.

(** ** Validation and conversion *)

Section Conversion.

Variables (a : App) (id : Z) (stamp : string).

Let amountValue := Str.parseFloat (amount_value a).

Lemma validateInput_positive :
  Num.ltb Num.zero amountValue = true -> validateInput a = (true, a).
Proof.
  intros Hpos. unfold validateInput. fold amountValue.
  destruct (Str.trim (amount_value a)) eqn:Et; simpl.
  - apply parseFloat_blank in Et. fold amountValue in Et.
    rewrite Et in Hpos. discriminate.
  - now rewrite (positive_not_NaN _ Hpos), (positive_not_leb _ Hpos).
Qed.

Lemma validateInput_true_inv :
  fst (validateInput a) = true -> Num.ltb Num.zero amountValue = true.
Proof.
  unfold validateInput. fold amountValue.
  destruct (Str.isEmpty _); [discriminate|].
  destruct (Num.isNaN amountValue) eqn:En; [discriminate|].
  destruct (Num.leb amountValue Num.zero) eqn:El; [discriminate|].
  intros _. now apply not_leb_positive.
Qed.

(** [showError] writes the message into the error box, shows it, and
    touches nothing else. *)
Lemma showError_frame (b : App) (message : string) :
  errorsShown (showError message b) = (errorsShown b ++ [message])%list /\
  amountError_textContent (showError message b) = message /\
  amountError_show (showError message b) = true /\
  set_errorsShown (errorsShown b)
    (set_amountError (amountError_textContent b) (amountError_show b)
       (showError message b)) = b.
Proof. destruct b. repeat split. Qed.

Lemma errorsShown_addToHistory from to amt converted :
  errorsShown (addToHistory from to amt converted id stamp a) = errorsShown a.
Proof.
  unfold addToHistory. destruct (isDuplicate _ _ _ _ _); [reflexivity|].
  unfold loadHistory. now destruct (getHistory _).
Qed.

End Conversion.

Section ConversionPaths.

Variables (a : App) (id : Z) (stamp : string).

Lemma performConversion_valid :
  Num.ltb Num.zero (Str.parseFloat (amount_value a)) = true ->
  performConversion id stamp a =
    match lookupRate a with
    | Some rate =>
        if Num.truthy rate then
          let amt := Str.parseFloat (amount_value a) in
          let converted := Str.toFixed (Num.mul amt rate) 2 in
          addToHistory (fromCurrency_value a) (toCurrency_value a) amt converted
            id stamp
            (displayResult converted rate (fromCurrency_value a)
               (toCurrency_value a) amt a)
        else conversionFailed a
    | None => conversionFailed a
    end.
Proof.
  intros Hpos. unfold performConversion, lookupRate.
  rewrite (validateInput_positive a Hpos). cbn [negb].
  destruct (ratesCache a) as [|r]; [reflexivity|].
  destruct (r !! toCurrency_value a) as [rate|]; [|reflexivity].
  now destruct (Num.truthy rate).
Qed.

Lemma performConversion_invalid :
  Num.ltb Num.zero (Str.parseFloat (amount_value a)) = false ->
  performConversion id stamp a = snd (validateInput a) /\
  fst (validateInput a) = false.
Proof.
  intros Hneg. unfold performConversion.
  destruct (validateInput a) as [valid a'] eqn:Ev.
  destruct valid; [|now split].
  pose proof (validateInput_true_inv a) as H. rewrite Ev in H.
  specialize (H eq_refl). congruence.
Qed.

Lemma conversionFailed_not_success :
  errorsShown (conversionFailed a) <> errorsShown a.
Proof.
  unfold conversionFailed. intros H.
  apply (f_equal (@length string)) in H.
  destruct (showError_frame a "Conversion failed. Please try again.") as [E _].
  rewrite E, length_app in H. simpl in H. lia.
Qed.

End ConversionPaths.

(** C2. The checks of a conversion run in a fixed order and the first one
    that fails decides: a blank amount gives "Please enter an amount"; a
    non-blank amount that does not parse gives "Please enter a valid
    number"; a parsed amount that is not above zero gives "Amount must be
    greater than 0"; a valid amount whose target currency has no rate in
    the cache gives "Conversion failed. Please try again.".  In each case
    the conversion is exactly one [showError] call, whatever the later
    checks would have said, and [showError] adds one message to the trace
    and changes the error box only. *)
Theorem C2_validation_order (a : App) (id : Z) (stamp : string) :
  let v := amount_value a in
  let x := Str.parseFloat v in
  (Str.trim v = "" ->
   performConversion id stamp a = showError "Please enter an amount" a) /\
  (Str.trim v <> "" -> Num.isNaN x = true ->
   performConversion id stamp a = showError "Please enter a valid number" a) /\
  (Str.trim v <> "" -> Num.isNaN x = false -> Num.leb x Num.zero = true ->
   performConversion id stamp a = showError "Amount must be greater than 0" a) /\
  (Str.trim v <> "" -> Num.isNaN x = false -> Num.leb x Num.zero = false ->
   lookupRate a = None ->
   performConversion id stamp a =
     showError "Conversion failed. Please try again." a) /\
  (forall message,
     errorsShown (showError message a) = (errorsShown a ++ [message])%list /\
     amountError_textContent (showError message a) = message /\
     amountError_show (showError message a) = true /\
     set_errorsShown (errorsShown a)
       (set_amountError (amountError_textContent a) (amountError_show a)
          (showError message a)) = a).
Proof.
  intros v x. subst v x.
  assert (Hblank : forall s, s <> "" -> Str.isEmpty s = false)
    by (intros [|c r]; [congruence | reflexivity]).
  split; [|split; [|split; [|split; [|intros m; apply showError_frame]]]].
  - intros Et. unfold performConversion, validateInput. now rewrite Et.
  - intros Et En. unfold performConversion, validateInput.
    now rewrite (Hblank _ Et), En.
  - intros Et En El. unfold performConversion, validateInput.
    now rewrite (Hblank _ Et), En, El.
  - intros Et En El Hrate.
    rewrite performConversion_valid by now apply not_leb_positive.
    now rewrite Hrate.
Qed.

(** ** History as read back from storage *)

Lemma jsonNumber_idemp (x : option number) :
  jsonNumber (jsonNumber x) = jsonNumber x.
Proof. now destruct x as [[s|s| |s m e]|]. Qed.

Lemma jsonEntry_idemp (e : HistoryEntry) : jsonEntry (jsonEntry e) = jsonEntry e.
Proof. unfold jsonEntry. simpl. now rewrite jsonNumber_idemp. Qed.

Lemma getHistory_setHistory (l : list HistoryEntry) (a : App) :
  getHistory (setHistory l a) = map jsonEntry l.
Proof. reflexivity. Qed.

Lemma conversionHistory_loadHistory (a : App) :
  conversionHistory (loadHistory a) = conversionHistory a.
Proof. unfold loadHistory. now destruct (getHistory a). Qed.

Lemma getHistory_loadHistory (a : App) : getHistory (loadHistory a) = getHistory a.
Proof. unfold getHistory. now rewrite conversionHistory_loadHistory. Qed.

Lemma getHistory_normal (a : App) :
  map jsonEntry (getHistory a) = getHistory a.
Proof.
  unfold getHistory. destruct (conversionHistory a) as [l|]; [|reflexivity].
  rewrite map_map. apply map_ext. intros e. apply jsonEntry_idemp.
Qed.

(** What [addToHistory] leaves in storage. *)
Lemma getHistory_addToHistory from to amt converted id stamp (a : App) :
  getHistory (addToHistory from to amt converted id stamp a) =
    if isDuplicate (head (getHistory a)) from to amt converted then getHistory a
    else take 50 (jsonEntry (mkEntry id from to (Some amt) converted stamp)
                    :: getHistory a).
Proof.
  unfold addToHistory.
  destruct (isDuplicate _ _ _ _ _); [reflexivity|].
  rewrite getHistory_loadHistory, getHistory_setHistory.
  set (l := mkEntry id from to (Some amt) converted stamp :: getHistory a).
  assert (Hl : map jsonEntry l =
               jsonEntry (mkEntry id from to (Some amt) converted stamp)
                 :: getHistory a).
  { subst l. cbn [map]. now rewrite getHistory_normal. }
  destruct (Nat.ltb_spec 50 (length l)) as [Hlong|Hshort].
  - now rewrite <- Hl, <- firstn_map.
  - rewrite Hl. symmetry. apply firstn_all2.
    rewrite <- Hl, length_map. exact Hshort.
Qed.

Lemma isDuplicate_true_inv (last : option HistoryEntry) from to amt converted :
  isDuplicate last from to amt converted = true ->
  exists e, last = Some e /\ e_fromCurr e = from /\ e_toCurr e = to /\
            amountEq (e_amount e) amt = true /\ e_converted e = converted.
Proof.
  destruct last as [e|]; [|discriminate]. unfold isDuplicate.
  rewrite !andb_true_iff, !String.eqb_eq. intros [[[? ?] ?] ?]. now exists e.
Qed.

(** After [addToHistory] the most recent stored entry carries the
    currencies and the converted amount that were handed in. *)
Lemma addToHistory_head from to amt converted id stamp (a : App) :
  exists e,
    head (getHistory (addToHistory from to amt converted id stamp a)) = Some e /\
    e_fromCurr e = from /\ e_toCurr e = to /\ e_converted e = converted.
Proof.
  rewrite getHistory_addToHistory.
  destruct (isDuplicate _ _ _ _ _) eqn:Ed.
  - apply isDuplicate_true_inv in Ed as (e & He & ? & ? & _ & ?). now exists e.
  - eexists. split; [reflexivity|]. now repeat split.
Qed.

(** ** Frame lemmas: what the history and display functions leave alone *)

Lemma ratesCache_addToHistory from to amt converted id stamp (a : App) :
  ratesCache (addToHistory from to amt converted id stamp a) = ratesCache a.
Proof.
  unfold addToHistory. destruct (isDuplicate _ _ _ _ _); [reflexivity|].
  unfold loadHistory. now destruct (getHistory _).
Qed.

Lemma display_addToHistory from to amt converted id stamp (a : App) :
  let a' := addToHistory from to amt converted id stamp a in
  resultAmount_textContent a' = resultAmount_textContent a /\
  exchangeRate_textContent a' = exchangeRate_textContent a /\
  resultContainer_show a' = resultContainer_show a.
Proof.
  unfold addToHistory. destruct (isDuplicate _ _ _ _ _); [now repeat split|].
  unfold loadHistory. now destruct (getHistory _).
Qed.

(** C10. With a valid amount, the conversion succeeds exactly when the
    value found for the target currency is truthy; a currency that is
    present in the cache with a falsy rate ([0], [-0] or [NaN]) takes the
    same failure path as a missing one: one "Conversion failed" message, no
    result displayed and nothing added to the history. *)
Theorem C10_falsy_rate_is_unavailable (a : App) (id : Z) (stamp : string) :
  Num.ltb Num.zero (Str.parseFloat (amount_value a)) = true ->
  (conversionSucceeds id stamp a <->
   exists rate, lookupRate a = Some rate /\ Num.truthy rate = true) /\
  (forall rate,
     lookupRate a = Some rate -> Num.truthy rate = false ->
     performConversion id stamp a = conversionFailed a /\
     resultAmount_textContent (performConversion id stamp a) =
       resultAmount_textContent a /\
     getHistory (performConversion id stamp a) = getHistory a).
Proof.
  intros Hpos. pose proof (performConversion_valid a id stamp Hpos) as Hpc.
  split.
  - unfold conversionSucceeds. rewrite Hpc. split.
    + destruct (lookupRate a) as [rate|].
      * destruct (Num.truthy rate) eqn:Et; [now exists rate|].
        intros H. now apply conversionFailed_not_success in H.
      * intros H. now apply conversionFailed_not_success in H.
    + intros (rate & -> & ->). cbv zeta.
      now rewrite errorsShown_addToHistory.
  - intros rate Hl Hf. rewrite Hpc, Hl, Hf. now repeat split.
Qed.

(** C1, as amended.  For a request whose amount is a positive number and
    whose target currency has a truthy rate [rate] in the cache, the
    conversion displays [amount * rate] (the binary64 product) rounded to
    hundredths, shows the rate used, records the converted amount as the
    most recent history entry, shows no error and leaves the rate cache
    unchanged. *)
Theorem C1_conversion_rounds_and_keeps_cache
    (a : App) (id : Z) (stamp : string) (rate : number) :
  Num.ltb Num.zero (Str.parseFloat (amount_value a)) = true ->
  lookupRate a = Some rate ->
  Num.truthy rate = true ->
  let amt := Str.parseFloat (amount_value a) in
  let converted := Str.toFixed (Num.mul amt rate) 2 in
  let a' := performConversion id stamp a in
  resultAmount_textContent a' = converted /\
  roundedToHundredths (Num.mul amt rate) converted /\
  ratesCache a' = ratesCache a /\
  exchangeRate_textContent a' =
    "1 " ++ fromCurrency_value a ++ " = " ++ Str.toFixed rate 4 ++ " "
    ++ toCurrency_value a /\
  resultContainer_show a' = true /\
  e_converted <$> head (getHistory a') = Some converted /\
  conversionSucceeds id stamp a.
Proof.
  intros Hpos Hl Ht amt converted a'.
  assert (Ha' : a' = addToHistory (fromCurrency_value a) (toCurrency_value a)
                       amt converted id stamp
                       (displayResult converted rate (fromCurrency_value a)
                          (toCurrency_value a) amt a)).
  { subst a'. rewrite performConversion_valid by assumption. now rewrite Hl, Ht. }
  destruct (display_addToHistory (fromCurrency_value a) (toCurrency_value a)
              amt converted id stamp
              (displayResult converted rate (fromCurrency_value a)
                 (toCurrency_value a) amt a)) as (Hr & He & Hs).
  destruct (addToHistory_head (fromCurrency_value a) (toCurrency_value a)
              amt converted id stamp
              (displayResult converted rate (fromCurrency_value a)
                 (toCurrency_value a) amt a)) as (e & Hh & _ & _ & Hc).
  rewrite <- Ha' in Hr, He, Hs, Hh.
  repeat split.
  - exact Hr.
  - apply toFixed_rounds.
  - rewrite Ha'. now rewrite ratesCache_addToHistory.
  - exact He.
  - exact Hs.
  - rewrite Hh. simpl. now rewrite Hc.
  - unfold conversionSucceeds. fold a'. rewrite Ha'.
    now rewrite errorsShown_addToHistory.
Qed.

(** C1 fails as stated: 5 USD with EUR present in the cache at rate 0.
    The amount is a positive number and the rate is in the cache, yet
    nothing is displayed ("0.00" would be the rounded product) and the
    failure message is shown. *)
Lemma C1_counterexample_zero_rate :
  let a := withRate "EUR" "0" (withAmount "5" page) in
  Num.ltb Num.zero (Str.parseFloat (amount_value a)) = true /\
  lookupRate a = Some Num.zero /\
  Str.toFixed (Num.mul (Str.parseFloat (amount_value a)) Num.zero) 2 = "0.00" /\
  resultAmount_textContent (performConversion 1 "now" a) = "" /\
  amountError_textContent (performConversion 1 "now" a) =
    "Conversion failed. Please try again.".
Proof. vm_compute. repeat split. Qed.

(** The amended C1 at work: 100 USD at 0.92 gives 92.00 and the rate
    line "1 USD = 0.9200 EUR". *)
Lemma C1_witness_100_usd_at_092 :
  let a := withRate "EUR" "0.92" (withAmount "100" page) in
  resultAmount_textContent (performConversion 1 "now" a) = "92.00" /\
  exchangeRate_textContent (performConversion 1 "now" a) = "1 USD = 0.9200 EUR" /\
  ratesCache (performConversion 1 "now" a) = ratesCache a.
Proof.
  intros a.
  destruct (C1_conversion_rounds_and_keeps_cache a 1 "now" (Str.parseFloat "0.92"))
    as (Hr & _ & Hc & He & _); [reflexivity | reflexivity | reflexivity |].
  split; [|split].
  - rewrite Hr. reflexivity.
  - rewrite He. reflexivity.
  - exact Hc.
Defined.

(** C2 at work: a blank amount, a word, a negative amount, and a valid
    amount with an empty cache. *)
Lemma C2_witness_each_check :
  performConversion 1 "now" (withAmount "   " page) =
    showError "Please enter an amount" (withAmount "   " page) /\
  performConversion 1 "now" (withAmount "abc" page) =
    showError "Please enter a valid number" (withAmount "abc" page) /\
  performConversion 1 "now" (withAmount "-5" page) =
    showError "Amount must be greater than 0" (withAmount "-5" page) /\
  performConversion 1 "now" (withAmount "5" page) =
    showError "Conversion failed. Please try again." (withAmount "5" page).
Proof.
  split; [|split; [|split]].
  - apply (C2_validation_order (withAmount "   " page) 1 "now"). reflexivity.
  - apply (C2_validation_order (withAmount "abc" page) 1 "now");
      [discriminate | reflexivity].
  - apply (C2_validation_order (withAmount "-5" page) 1 "now");
      [discriminate | reflexivity | reflexivity].
  - apply (C2_validation_order (withAmount "5" page) 1 "now");
      [discriminate | reflexivity | reflexivity | reflexivity].
Defined.

(** C10 at work: 5 USD with EUR in the cache at rate 0. *)
Lemma C10_witness_zero_rate :
  let a := withRate "EUR" "0" (withAmount "5" page) in
  performConversion 1 "now" a = conversionFailed a /\
  ~ conversionSucceeds 1 "now" a.
Proof.
  intros a.
  destruct (C10_falsy_rate_is_unavailable a 1 "now") as [Hiff Hfalsy];
    [reflexivity|].
  split.
  - apply (Hfalsy (Str.parseFloat "0")); reflexivity.
  - intros Hs. apply Hiff in Hs. destruct Hs as (rate & Hl & Ht).
    vm_compute in Hl. injection Hl as <-. discriminate.
Defined.

(** ** Fetching and the cache *)

Lemma resume_failed (o : Outcome) (t t' : Z) (a : App) :
  fetched o = None -> fetchRatesOnce_resume o t t' a = fetchFailed a.
Proof. destruct o as [|[] [| |rates]]; simpl; congruence. Qed.


Lemma ratesCache_performConversion (id : Z) (stamp : string) (a : App) :
  ratesCache (performConversion id stamp a) = ratesCache a.
Proof.
  unfold performConversion, validateInput.
  destruct (Str.isEmpty _); [reflexivity|].
  destruct (Num.isNaN _); [reflexivity|].
  destruct (Num.leb _ _); [reflexivity|]. cbn [negb].
  destruct (ratesCache a) as [|r] eqn:Ec; [now rewrite <- Ec|].
  destruct (r !! toCurrency_value a) as [rate|]; [|now rewrite <- Ec].
  destruct (Num.truthy rate); cbn [negb]; [|now rewrite <- Ec].
  now rewrite ratesCache_addToHistory, <- Ec.
Qed.


Lemma ratesCache_autoUpdateTick (id : Z) (stamp : string) (a : App) :
  ratesCache (autoUpdateTick id stamp a) = ratesCache a.
Proof.
  unfold autoUpdateTick. destruct (autoUpdateEnabled a); [|reflexivity].
  cbn [setTimeout addTimer]. destruct (isValidAmount _); [|reflexivity].
  now rewrite ratesCache_performConversion.
Qed.

Lemma ratesCache_swapCurrencies (id : Z) (stamp : string) (a : App) :
  ratesCache (swapCurrencies id stamp a) = ratesCache a.
Proof.
  unfold swapCurrencies. destruct (isValidAmount _); [|reflexivity].
  now rewrite ratesCache_performConversion.
Qed.



(** A conversion succeeds exactly when the amount is a positive number
    and the value found for the target currency is truthy. *)
Lemma conversionSucceeds_iff (id : Z) (stamp : string) (a : App) :
  conversionSucceeds id stamp a <->
  Num.ltb Num.zero (Str.parseFloat (amount_value a)) = true /\
  exists rate, lookupRate a = Some rate /\ Num.truthy rate = true.
Proof.
  unfold conversionSucceeds. split.
  - intros Hs.
    destruct (Num.ltb Num.zero (Str.parseFloat (amount_value a))) eqn:Hpos.
    + split; [reflexivity|].
      rewrite (performConversion_valid a id stamp Hpos) in Hs.
      destruct (lookupRate a) as [rate|].
      * destruct (Num.truthy rate) eqn:Et; [now exists rate|].
        now apply conversionFailed_not_success in Hs.
      * now apply conversionFailed_not_success in Hs.
    + exfalso.
      destruct (performConversion_invalid a id stamp Hpos) as [Hp Hf].
      rewrite Hp in Hs. revert Hf Hs. unfold validateInput.
      repeat match goal with
             | |- context [if ?b then _ else _] => destruct b
             end; cbn; try discriminate; intros _ Hs;
        apply (f_equal (@length string)) in Hs;
        rewrite length_app in Hs; simpl in Hs; lia.
  - intros (Hpos & rate & Hl & Ht).
    rewrite (performConversion_valid a id stamp Hpos), Hl, Ht. cbv zeta.
    now rewrite errorsShown_addToHistory.
Qed.

Lemma resultAmount_success (id : Z) (stamp : string) (a : App) (rate : number) :
  Num.ltb Num.zero (Str.parseFloat (amount_value a)) = true ->
  lookupRate a = Some rate -> Num.truthy rate = true ->
  resultAmount_textContent (performConversion id stamp a) =
    Str.toFixed (Num.mul (Str.parseFloat (amount_value a)) rate) 2.
Proof.
  intros Hpos Hl Ht.
  rewrite (performConversion_valid a id stamp Hpos), Hl, Ht. cbv zeta.
  now rewrite (proj1 (display_addToHistory _ _ _ _ _ _ _)).
Qed.

(** The part of C9 that holds.  When the request is rejected, the status
    is not a success, or the body is not JSON or is [null], the rate cache
    keeps its previous value: the only effect is the failure message.  A
    conversion that succeeded against the cached rates before the failed
    fetch still succeeds after it, with the same converted amount. *)
Theorem failed_fetch_keeps_cache
    (a : App) (o : Outcome) (t t' id : Z) (stamp : string) :
  fetched o = None ->
  let a' := fetchRatesOnce_resume o t t' a in
  ratesCache a' = ratesCache a /\
  a' = showError "Failed to fetch rates. Please check your internet connection." a /\
  (conversionSucceeds id stamp a ->
   conversionSucceeds id stamp a' /\
   resultAmount_textContent (performConversion id stamp a') =
     resultAmount_textContent (performConversion id stamp a)).
Proof.
  intros Hf a'. subst a'. rewrite (resume_failed o t t' a Hf).
  split; [reflexivity|]. split; [reflexivity|].
  intros Hs. apply conversionSucceeds_iff in Hs as (Hpos & rate & Hl & Ht).
  split.
  - apply conversionSucceeds_iff. split; [exact Hpos|]. now exists rate.
  - rewrite (resultAmount_success id stamp (fetchFailed a) rate Hpos Hl Ht).
    now rewrite (resultAmount_success id stamp a rate Hpos Hl Ht).
Qed.

(** A failed fetch at work: the request is rejected while EUR is cached
    at 0.92; 100 USD still convert to 92.00. *)
Lemma failed_fetch_witness_network_error :
  let a := withRate "EUR" "0.92" (withAmount "100" page) in
  let a' := fetchRatesOnce_resume Rejected 1000 1000 a in
  lookupRate a' = Some (Str.parseFloat "0.92") /\
  ratesCache a' = ratesCache a /\
  resultAmount_textContent (performConversion 1 "now" a') = "92.00".
Proof.
  intros a a'.
  destruct (failed_fetch_keeps_cache a Rejected 1000 1000 1 "now" eq_refl)
    as (Hc & _ & Hs).
  split; [reflexivity|]. split; [exact Hc|].
  destruct Hs as [_ Hr]; [reflexivity|].
  fold a' in Hr. rewrite Hr. reflexivity.
Defined.

(** A response with a success status and a body that parses but has no
    [rates] takes the success path: the state is the previous one with
    [undefined] as the cache, the time of the update and a new status
    line. *)
Lemma resume_without_rates (t t' : Z) (a : App) :
  exists text,
    fetchRatesOnce_resume (Response true (JsonData NoRates)) t t' a =
      set_lastUpdated_textContent text
        (set_lastUpdateTime (Some t) (set_ratesCache NoRates a)).
Proof.
  cbn [fetchRatesOnce_resume]. unfold updateStatus.
  cbn [lastUpdateTime set_lastUpdateTime].
  destruct (_ <? 60); eexists; reflexivity.
Qed.

(** C9 fails on the code.  A response with a success status whose body
    parses as JSON but carries no [rates] is malformed data, but
    [fetchRatesOnce] does not take it as a failure: it stores [undefined]
    as the cache, records the time of the update and shows no error.  The
    previous rates are lost: a conversion that succeeded before the
    response ends with "Conversion failed" after it. *)
Theorem C9_body_without_rates_clears_cache
    (a : App) (t t' id : Z) (stamp : string) :
  conversionSucceeds id stamp a ->
  let a' := fetchRatesOnce_resume (Response true (JsonData NoRates)) t t' a in
  ratesCache a' = NoRates /\
  lastUpdateTime a' = Some t /\
  errorsShown a' = errorsShown a /\
  ~ conversionSucceeds id stamp a' /\
  performConversion id stamp a' = conversionFailed a'.
Proof.
  intros Hs a'. subst a'.
  apply conversionSucceeds_iff in Hs as (Hpos & _).
  destruct (resume_without_rates t t' a) as (text & ->).
  split; [reflexivity|]. split; [reflexivity|]. split; [reflexivity|].
  split.
  - intros Hs'. apply conversionSucceeds_iff in Hs' as (_ & rate & Hl & _).
    discriminate Hl.
  - now rewrite (performConversion_valid
                   (set_lastUpdated_textContent text
                      (set_lastUpdateTime (Some t) (set_ratesCache NoRates a)))
                   id stamp Hpos).
Qed.

(** C9 on a concrete run: EUR is cached at 0.92 and 100 USD convert to
    92.00; a response with status 200 and the body [{}] arrives; no error
    is shown, the cache is [undefined], and the same conversion now shows
    "Conversion failed". *)
Lemma C9_witness_empty_object_body :
  let a := withRate "EUR" "0.92" (withAmount "100" page) in
  let a' := fetchRatesOnce_resume (Response true (JsonData NoRates)) 1 1 a in
  resultAmount_textContent (performConversion 2 "12:00:02" a) = "92.00" /\
  ratesCache a' = NoRates /\
  errorsShown a' = [] /\
  amountError_textContent (performConversion 2 "12:00:02" a') =
    "Conversion failed. Please try again.".
Proof.
  intros a a'.
  destruct (C9_body_without_rates_clears_cache a 1 1 2 "12:00:02")
    as (Hc & _ & He & _ & Hp); [vm_compute; reflexivity|].
  fold a' in Hc, He, Hp.
  split; [vm_compute; reflexivity|]. split; [exact Hc|].
  split; [rewrite He; vm_compute; reflexivity|].
  rewrite Hp. reflexivity.
Defined.

(** ** What a conversion can change *)

Lemma addToHistory_frame from to amt converted id stamp (a : App) :
  onlyConversionFields a (addToHistory from to amt converted id stamp a).
Proof.
  unfold onlyConversionFields, addToHistory.
  destruct (isDuplicate _ _ _ _ _); [now destruct a|].
  unfold loadHistory. now destruct (getHistory _).
Qed.

Lemma performConversion_frame (id : Z) (stamp : string) (a : App) :
  onlyConversionFields a (performConversion id stamp a).
Proof.
  unfold performConversion, validateInput.
  destruct (Str.isEmpty _); [reflexivity|].
  destruct (Num.isNaN _); [reflexivity|].
  destruct (Num.leb _ _); [reflexivity|]. cbn [negb].
  destruct (ratesCache a) as [|r]; [reflexivity|].
  destruct (r !! toCurrency_value a) as [rate|]; [|reflexivity].
  destruct (Num.truthy rate); cbn [negb]; [|reflexivity].
  set (b := displayResult _ _ _ _ _ a).
  pose proof (addToHistory_frame (fromCurrency_value a) (toCurrency_value a)
                (Str.parseFloat (amount_value a))
                (Str.toFixed (Num.mul (Str.parseFloat (amount_value a)) rate) 2)
                id stamp b) as H.
  unfold onlyConversionFields in *. rewrite H at 1. reflexivity.
Qed.

Lemma scheduler_performConversion (id : Z) (stamp : string) (a : App) :
  scheduler (performConversion id stamp a) = scheduler a.
Proof.
  pose proof (performConversion_frame id stamp a) as H.
  unfold onlyConversionFields in H. now rewrite H.
Qed.

(** ** Timers *)

Lemma sameTimers_wf (a a' : App) :
  sameTimers a a' -> timersWellFormed a -> timersWellFormed a'.
Proof.
  intros (Ht & Hn & Hu) (H0 & H1 & H2). unfold timersWellFormed.
  rewrite Ht, Hn, Hu. auto.
Qed.

Lemma sameTimers_performConversion (id : Z) (stamp : string) (a : App) :
  sameTimers a (performConversion id stamp a).
Proof.
  pose proof (scheduler_performConversion id stamp a) as H.
  unfold scheduler in H. unfold sameTimers. now inversion H.
Qed.

Lemma handleSet_Some (u : option N) (h : N) :
  handleSet u = Some h -> u = Some h /\ h <> 0%N.
Proof. destruct u as [[|p]|]; simpl; intros H; inversion H; now split. Qed.

Lemma addTimer_wf (t : Timer) (a : App) :
  timersWellFormed a -> timersWellFormed (snd (addTimer t a)).
Proof.
  intros (H0 & H1 & H2). unfold addTimer, timersWellFormed. cbn.
  split; [lia|]. split.
  - intros h cb' Hl. apply lookup_insert_Some in Hl as [[<- _]|[_ Hl]]; [lia|].
    apply H1 in Hl. lia.
  - intros h Hu. apply H2 in Hu. lia.
Qed.

Lemma clearInterval_wf (h : N) (a : App) :
  timersWellFormed a -> timersWellFormed (clearInterval h a).
Proof.
  intros (H0 & H1 & H2). unfold clearInterval, timersWellFormed. cbn.
  split; [exact H0|]. split; [|exact H2].
  intros h' cb Hl. apply lookup_delete_Some in Hl as [_ Hl]. eauto.
Qed.

Lemma startAutoUpdate_wf (a : App) :
  timersWellFormed a -> timersWellFormed (startAutoUpdate a).
Proof.
  intros Hwf. unfold startAutoUpdate.
  set (b := match handleSet (updateIntervalId a) with
            | Some h => clearInterval h a
            | None => a
            end).
  assert (Hb : timersWellFormed b).
  { subst b. destruct (handleSet _); [now apply clearInterval_wf | exact Hwf]. }
  destruct Hb as (H0 & H1 & _). unfold timersWellFormed. cbn.
  split; [lia|]. split.
  - intros h cb Hl. apply lookup_insert_Some in Hl as [[<- _]|[_ Hl]]; [lia|].
    apply H1 in Hl. lia.
  - intros h [= <-]. lia.
Qed.

Lemma autoUpdateTick_wf (id : Z) (stamp : string) (a : App) :
  timersWellFormed a -> timersWellFormed (autoUpdateTick id stamp a).
Proof.
  intros Hwf. unfold autoUpdateTick.
  destruct (autoUpdateEnabled a); [|exact Hwf].
  set (b := fetchRatesOnce (set_statusDot_updating true a)).
  assert (Hb : timersWellFormed (snd (setTimeout StopPulseCb 1000 b)))
    by (apply addTimer_wf; exact Hwf).
  cbn [setTimeout addTimer] in *. cbn [snd] in Hb.
  destruct (isValidAmount _); [|exact Hb].
  eapply sameTimers_wf; [apply sameTimers_performConversion | exact Hb].
Qed.

Lemma convertIfValid_wf (c : Clock) (a : App) :
  timersWellFormed a -> timersWellFormed (convertIfValid c a).
Proof.
  intros Hwf. unfold convertIfValid. destruct (isValidAmount a); [|exact Hwf].
  eapply sameTimers_wf; [apply sameTimers_performConversion | exact Hwf].
Qed.

(** Every handler keeps the timers well formed. *)
Lemma step_wf (ev : Event) (a : App) :
  timersWellFormed a -> timersWellFormed (step ev a).
Proof.
  intros Hwf. destruct ev; cbn [step].
  - apply startAutoUpdate_wf. unfold loadHistory.
    now destruct (getHistory a).
  - now apply convertIfValid_wf.
  - eapply sameTimers_wf; [apply sameTimers_performConversion | exact Hwf].
  - now apply convertIfValid_wf.
  - now apply convertIfValid_wf.
  - unfold swapCurrencies. destruct (isValidAmount _); [|exact Hwf].
    eapply sameTimers_wf; [apply sameTimers_performConversion | exact Hwf].
  - exact Hwf.
  - unfold deleteAllHistory. destruct confirmed; [|exact Hwf].
    unfold loadHistory. now destruct (getHistory _).
  - unfold deleteHistoryItem, loadHistory. now destruct (getHistory _).
  - unfold toggleAutoUpdateMode.
    set (b := set_toggleAutoUpdate _ _ _).
    assert (Hb : timersWellFormed b) by exact Hwf.
    destruct (autoUpdateEnabled b); [now apply startAutoUpdate_wf | exact Hb].
  - unfold fireTimer. destruct (timers a !! h) as [t|]; [|exact Hwf].
    set (b := if repeating t then a else clearInterval h a).
    assert (Hb : timersWellFormed b)
      by (subst b; destruct (repeating t);
          [exact Hwf | now apply clearInterval_wf]).
    destruct (callback t).
    + unfold updateStatus. destruct (lastUpdateTime b); [|exact Hb].
      now destruct (_ <? 60).
    + now apply autoUpdateTick_wf.
    + exact Hb.
  - unfold settle. destruct (pending a !! i); [|exact Hwf].
    destruct o as [|[] [| |rates]]; try exact Hwf.
    cbn [fetchRatesOnce_resume]. unfold updateStatus. cbn.
    now destruct (_ <? 60).
  - destruct (handleSet _); [now apply clearInterval_wf | exact Hwf].
Qed.

Lemma run_wf (evs : list Event) (a : App) :
  timersWellFormed a -> timersWellFormed (run evs a).
Proof.
  revert a. induction evs as [|ev evs IH]; intros a Hwf; [exact Hwf|].
  cbn. apply IH. now apply step_wf.
Qed.

Lemma scriptLoaded_wf (from to : string) (stored : option (list HistoryEntry)) :
  timersWellFormed (scriptLoaded from to stored).
Proof.
  unfold timersWellFormed. cbn. split; [lia|]. split; [|discriminate].
  intros h cb Hl. apply lookup_singleton_Some in Hl as [<- _]. lia.
Qed.

(** ** Pausing and resuming the automatic updates *)

(** C4 fails as stated: the page is loaded, auto-update is switched off
    and on again.  Switching it on cancels timer 2 and arms timer 3, and
    [updateIntervalId] changes from 2 to 3. *)
Lemma C4_counterexample_reenable_rearms :
  let a := run [DOMContentLoaded; ToggleClick] page in
  let a' := step ToggleClick a in
  autoUpdateEnabled a = false /\ autoUpdateEnabled a' = true /\
  updateIntervalId a = Some 2%N /\ updateIntervalId a' = Some 3%N /\
  timers a !! 2%N = Some (mkTimer AutoUpdateCb 5000 true) /\
  timers a' !! 2%N = None /\
  timers a' !! 3%N = Some (mkTimer AutoUpdateCb 5000 true).
Proof. vm_compute. repeat split. Qed.

(** C4, as amended.  Switching auto-update off only clears the flag (and
    relabels the button): the timers and [updateIntervalId] stay, and a
    tick of the interval then changes nothing.  Switching it on again
    restarts the updates: the interval kept in [updateIntervalId] is
    cancelled, a request is sent at once, and a new interval is armed under
    the next handle, which [updateIntervalId] then holds. *)
Theorem C4_toggle_pauses_then_restarts (a : App) :
  (autoUpdateEnabled a = true ->
   let a' := toggleAutoUpdateMode a in
   a' = set_toggleAutoUpdate "Auto-Update: OFF" false
          (set_autoUpdateEnabled false a) /\
   timers a' = timers a /\ updateIntervalId a' = updateIntervalId a /\
   forall h ms c,
     timers a' !! h = Some (mkTimer AutoUpdateCb ms true) ->
     fireTimer h c a' = a') /\
  (autoUpdateEnabled a = false ->
   let a' := toggleAutoUpdateMode a in
   autoUpdateEnabled a' = true /\
   updateIntervalId a' = Some (nextHandle a) /\
   timers a' =
     <[nextHandle a := mkTimer AutoUpdateCb UPDATE_FREQUENCY true]>
       (match handleSet (updateIntervalId a) with
        | Some h => delete h (timers a)
        | None => timers a
        end) /\
   nextHandle a' = N.succ (nextHandle a) /\
   pending a' = (pending a ++ [(API_URL ++ fromCurrency_value a)%string])%list /\
   (timersWellFormed a ->
    forall h, updateIntervalId a = Some h ->
      h <> nextHandle a /\ timers a' !! h = None /\
      timers a' !! nextHandle a =
        Some (mkTimer AutoUpdateCb UPDATE_FREQUENCY true))).
Proof.
  split; intros He; unfold toggleAutoUpdateMode; cbn; rewrite He; cbn.
  - repeat split. intros h ms c Hl. unfold fireTimer. cbn. rewrite Hl.
    unfold autoUpdateTick. reflexivity.
  - unfold startAutoUpdate. cbn.
    destruct (handleSet (updateIntervalId a)) as [h0|] eqn:Eh; cbn;
      (split; [reflexivity|]); (split; [reflexivity|]);
      (split; [reflexivity|]); (split; [reflexivity|]);
      (split; [reflexivity|]);
      intros (H0 & H1 & H2) h Hu; pose proof (H2 h Hu) as Hb.
    + apply handleSet_Some in Eh as [Eh _].
      assert (h0 = h) as -> by congruence.
      split; [lia|]. split.
      * rewrite lookup_insert_ne by lia. apply lookup_delete_eq.
      * apply lookup_insert_eq.
    + rewrite Hu in Eh. destruct h; [lia | discriminate].
Qed.

(** The amended C4 at work on the loaded page: switching off keeps timer
    2, switching on again replaces it by timer 3. *)
Lemma C4_witness_off_and_on :
  let a := step DOMContentLoaded page in
  let off := toggleAutoUpdateMode a in
  let on := toggleAutoUpdateMode off in
  (timers off = timers a /\ updateIntervalId off = Some 2%N) /\
  (updateIntervalId on = Some 3%N /\ timers on !! 2%N = None).
Proof.
  cbv zeta. set (a := step DOMContentLoaded page).
  destruct (C4_toggle_pauses_then_restarts a) as [Hoff _].
  destruct (C4_toggle_pauses_then_restarts (toggleAutoUpdateMode a)) as [_ Hon].
  assert (E1 : autoUpdateEnabled a = true) by (vm_compute; reflexivity).
  assert (E2 : autoUpdateEnabled (toggleAutoUpdateMode a) = false)
    by (vm_compute; reflexivity).
  specialize (Hoff E1). specialize (Hon E2). cbv zeta in Hoff, Hon.
  destruct Hoff as (_ & Ht & Hu & _).
  destruct Hon as (_ & Hu' & _ & _ & _ & Hwf).
  split; [split; [exact Ht | rewrite Hu; vm_compute; reflexivity]|].
  split; [rewrite Hu'; vm_compute; reflexivity|].
  apply Hwf; [|vm_compute; reflexivity].
  apply (step_wf ToggleClick a), (step_wf DOMContentLoaded page).
  apply scriptLoaded_wf.
Defined.

(** ** A tick converts before its own request settles *)

Lemma isValidAmount_positive (a : App) :
  isValidAmount a = true ->
  Num.ltb Num.zero (Str.parseFloat (amount_value a)) = true.
Proof. unfold isValidAmount. rewrite !andb_true_iff. tauto. Qed.

(** The outcome of a conversion depends on the form, the cache and the
    stored history only. *)
Lemma performConversion_agree (id : Z) (stamp : string) (a b : App) :
  amount_value b = amount_value a ->
  fromCurrency_value b = fromCurrency_value a ->
  toCurrency_value b = toCurrency_value a ->
  ratesCache b = ratesCache a ->
  conversionHistory b = conversionHistory a ->
  Num.ltb Num.zero (Str.parseFloat (amount_value a)) = true ->
  getHistory (performConversion id stamp b) =
    getHistory (performConversion id stamp a) /\
  (resultAmount_textContent b = resultAmount_textContent a ->
   resultAmount_textContent (performConversion id stamp b) =
     resultAmount_textContent (performConversion id stamp a)).
Proof.
  intros Hv Hf Ht Hc Hh Hpos.
  assert (Hl : lookupRate b = lookupRate a)
    by (unfold lookupRate; now rewrite Hc, Ht).
  assert (Hg : getHistory b = getHistory a)
    by (unfold getHistory; now rewrite Hh).
  rewrite (performConversion_valid a id stamp Hpos).
  rewrite (performConversion_valid b id stamp) by now rewrite Hv.
  rewrite Hl, Hv, Hf, Ht.
  destruct (lookupRate a) as [rate|]; [|now split].
  destruct (Num.truthy rate); [|now split]. cbv zeta. split.
  - rewrite !getHistory_addToHistory.
    change (getHistory (displayResult ?c ?r ?f ?t ?x b)) with (getHistory b).
    change (getHistory (displayResult ?c ?r ?f ?t ?x a)) with (getHistory a).
    now rewrite Hg.
  - intros _.
    now rewrite !(proj1 (display_addToHistory _ _ _ _ _ _ _)).
Qed.

(** C6, on the code.  A tick of the interval sends its request and then
    converts at once: when it returns the request is still in flight, the
    cache is the one from before the tick, and what is displayed and
    stored is what a conversion made before the tick would have given. *)
Theorem C6_tick_converts_with_earlier_snapshot
    (a : App) (id : Z) (stamp : string) :
  autoUpdateEnabled a = true ->
  isValidAmount a = true ->
  let a' := autoUpdateTick id stamp a in
  ratesCache a' = ratesCache a /\
  pending a' = (pending a ++ [(API_URL ++ fromCurrency_value a)%string])%list /\
  resultAmount_textContent a' =
    resultAmount_textContent (performConversion id stamp a) /\
  getHistory a' = getHistory (performConversion id stamp a).
Proof.
  intros He Hv a'. split; [apply ratesCache_autoUpdateTick|].
  subst a'. unfold autoUpdateTick. rewrite He. cbn [setTimeout addTimer].
  set (b := set_timers _ _ _).
  change (isValidAmount b) with (isValidAmount a). rewrite Hv.
  pose proof (scheduler_performConversion id stamp b) as Hs.
  unfold scheduler in Hs.
  destruct (performConversion_agree id stamp a b) as [Hg Hr];
    try reflexivity; [now apply isValidAmount_positive|].
  split; [|split; [now apply Hr | exact Hg]].
  now inversion Hs.
Qed.

(** The failing run for C6: the page is loaded and both start-up requests
    settle with EUR at 0.92; the user types 100; the interval (handle 2)
    ticks.  The tick converts at 0.92 while its own request is still in
    flight; that request then settles with EUR at 0.5 and the display
    stays at 92.00.  The next tick converts at 0.5, the rate fetched by the
    tick before it, while its own request is in flight in turn. *)
Lemma C6_witness_tick_shows_stale_rate :
  let afterTick := step (TimerFires 2 (mkClock 5000 5000 "12:00:05")) beforeTick in
  let settled :=
    step (FetchSettles 0 (eurAt "0.5") (mkClock 5300 5300 "12:00:05")) afterTick in
  let nextTick := step (TimerFires 2 (mkClock 10000 10000 "12:00:10")) settled in
  ratesCache afterTick = ratesCache beforeTick /\
  pending afterTick = ["https://api.exchangerate-api.com/v4/latest/USD"] /\
  resultAmount_textContent afterTick = "92.00" /\
  lookupRate settled = Some (Str.parseFloat "0.5") /\
  resultAmount_textContent settled = "92.00" /\
  pending nextTick = ["https://api.exchangerate-api.com/v4/latest/USD"] /\
  resultAmount_textContent nextTick = "50.00".
Proof.
  cbv zeta.
  assert (He : autoUpdateEnabled beforeTick = true) by (vm_compute; reflexivity).
  assert (Hv : isValidAmount beforeTick = true) by (vm_compute; reflexivity).
  destruct (C6_tick_converts_with_earlier_snapshot beforeTick 5000 "12:00:05" He Hv)
    as (Hc & _ & _ & _).
  split.
  - assert (Hs : step (TimerFires 2 (mkClock 5000 5000 "12:00:05")) beforeTick =
                 autoUpdateTick 5000 "12:00:05" beforeTick)
      by (vm_compute; reflexivity).
    rewrite Hs. exact Hc.
  - vm_compute. repeat split.
Defined.

(** ** History *)

Lemma filter_id_jsonEntry (id : Z) (l : list HistoryEntry) :
  map jsonEntry (List.filter (fun entry => negb (e_id entry =? id)) l) =
  List.filter (fun entry => negb (e_id entry =? id)) (map jsonEntry l).
Proof.
  induction l as [|e l IH]; [reflexivity|]. cbn.
  destruct (negb (e_id e =? id)); cbn; now rewrite IH.
Qed.

Lemma getHistory_deleteHistoryItem (id : Z) (a : App) :
  getHistory (deleteHistoryItem id a) =
    List.filter (fun entry => negb (e_id entry =? id)) (getHistory a).
Proof.
  unfold deleteHistoryItem.
  rewrite getHistory_loadHistory, getHistory_setHistory.
  now rewrite filter_id_jsonEntry, getHistory_normal.
Qed.

Lemma filter_id_none (id : Z) (l : list HistoryEntry) :
  Forall (fun e => e_id e <> id) l ->
  List.filter (fun entry => negb (e_id entry =? id)) l = l.
Proof.
  induction 1 as [|e l He _ IH]; [reflexivity|]. cbn.
  destruct (Z.eqb_spec (e_id e) id); [contradiction|]. cbn. now rewrite IH.
Qed.

(** The part of C5 that holds.  Removing an id deletes every stored
    entry with that id and keeps the others in their order; nothing
    changes when no entry has the id, and exactly one entry goes when the
    stored ids are distinct. *)
Theorem deleteHistoryItem_removes_matching_ids (a : App) (id : Z) :
  let h := getHistory a in
  let h' := getHistory (deleteHistoryItem id a) in
  h' = List.filter (fun entry => negb (e_id entry =? id)) h /\
  (Forall (fun e => e_id e <> id) h -> h' = h) /\
  (NoDup (map e_id h) ->
   forall l1 e l2, h = (l1 ++ e :: l2)%list -> e_id e = id -> h' = (l1 ++ l2)%list).
Proof.
  intros h h'. subst h h'. rewrite getHistory_deleteHistoryItem.
  split; [reflexivity|]. split; [apply filter_id_none|].
  intros Hnd l1 e l2 Hh He. rewrite Hh in *.
  rewrite map_app in Hnd. cbn [map] in Hnd.
  apply NoDup_app in Hnd as (_ & Hl1 & Hl2).
  apply NoDup_cons in Hl2 as (Hl2 & _).
  assert (H1 : Forall (fun e0 => e_id e0 <> id) l1).
  { apply List.Forall_forall. intros x Hx Hid.
    apply (Hl1 (e_id x)).
    - apply list_elem_of_In. now apply in_map.
    - rewrite Hid, He. left. }
  assert (H2 : Forall (fun e0 => e_id e0 <> id) l2).
  { apply List.Forall_forall. intros x Hx Hid. apply Hl2.
    rewrite He, <- Hid. apply list_elem_of_In. now apply in_map. }
  rewrite List.filter_app. cbn [List.filter].
  rewrite (filter_id_none id l1 H1), (filter_id_none id l2 H2).
  now rewrite He, Z.eqb_refl.
Qed.

(** Distinct ids at work: with ids 8 and 7 stored, deleting 7 leaves the
    entry 8 and deleting 9 changes nothing. *)
Lemma deleteHistoryItem_witness_one_of_two :
  let a := run [AmountInput "1" (mkClock 7 7 "12:00:00");
                AmountInput "12" (mkClock 8 8 "12:00:00")]
             (withRate "EUR" "0.92" page) in
  map e_id (getHistory a) = [8; 7] /\
  map e_id (getHistory (deleteHistoryItem 7 a)) = [8] /\
  getHistory (deleteHistoryItem 9 a) = getHistory a.
Proof.
  cbv zeta.
  set (a := run _ _).
  destruct (deleteHistoryItem_removes_matching_ids a 7) as (H7 & _ & _).
  destruct (deleteHistoryItem_removes_matching_ids a 9) as (_ & H9 & _).
  cbv zeta in H7, H9.
  split; [vm_compute; reflexivity|]. split.
  - rewrite H7. vm_compute. reflexivity.
  - apply H9. assert (Hh : getHistory a = getHistory a) by reflexivity.
    revert Hh. generalize (getHistory a) at 1 3. intros l Hl.
    vm_compute in Hl. subst l. repeat constructor; discriminate.
Defined.

(** C5 fails on the code.  The id of an entry is the reading of
    [Date.now()] at the time of the conversion, so two conversions
    recorded at the same reading of the clock get the same id: they are
    the two newest stored entries, and one [deleteHistoryItem] with that
    id removes both where it should remove one. *)
Theorem C5_same_clock_reading_deletes_both
    (a : App) (id : Z) (from1 to1 : string) (amt1 : number)
    (converted1 stamp1 : string) (from2 to2 : string) (amt2 : number)
    (converted2 stamp2 : string) :
  isDuplicate (head (getHistory a)) from1 to1 amt1 converted1 = false ->
  let a1 := addToHistory from1 to1 amt1 converted1 id stamp1 a in
  isDuplicate (head (getHistory a1)) from2 to2 amt2 converted2 = false ->
  let a2 := addToHistory from2 to2 amt2 converted2 id stamp2 a1 in
  exists e1 e2 rest,
    getHistory a2 = e2 :: e1 :: rest /\
    e_id e1 = id /\ e_converted e1 = converted1 /\
    e_id e2 = id /\ e_converted e2 = converted2 /\
    getHistory (deleteHistoryItem id a2) =
      List.filter (fun entry => negb (e_id entry =? id)) rest /\
    (length (getHistory (deleteHistoryItem id a2)) + 2 <=
       length (getHistory a2))%nat.
Proof.
  intros Hd1 a1 Hd2 a2.
  assert (H1 : getHistory a1 =
               jsonEntry (mkEntry id from1 to1 (Some amt1) converted1 stamp1)
                 :: take 49 (getHistory a)).
  { subst a1. now rewrite getHistory_addToHistory, Hd1. }
  assert (H2 : getHistory a2 =
               jsonEntry (mkEntry id from2 to2 (Some amt2) converted2 stamp2)
                 :: jsonEntry (mkEntry id from1 to1 (Some amt1) converted1 stamp1)
                 :: take 48 (take 49 (getHistory a))).
  { subst a2. now rewrite getHistory_addToHistory, Hd2, H1. }
  eexists _, _, _. split; [exact H2|].
  split; [reflexivity|]. split; [reflexivity|].
  split; [reflexivity|]. split; [reflexivity|].
  rewrite getHistory_deleteHistoryItem, H2. cbn [List.filter jsonEntry e_id].
  rewrite Z.eqb_refl. cbn [negb]. split; [reflexivity|].
  cbn [length].
  pose proof (List.filter_length_le (fun entry => negb (e_id entry =? id))
                (take 48 (take 49 (getHistory a)))).
  lia.
Qed.

(** C5 on a concrete run: the amounts 1 and 12 are typed within the same
    millisecond; both conversions are stored under the id 7, and deleting
    the id 7 empties the history. *)
Lemma C5_witness_same_millisecond :
  let sameMs := mkClock 7 7 "12:00:00" in
  let a0 := withRate "EUR" "0.92" page in
  let a := run [AmountInput "1" sameMs; AmountInput "12" sameMs] a0 in
  let a2 := addToHistory "USD" "EUR" (Str.parseFloat "12") "11.04" 7 "12:00:00"
              (addToHistory "USD" "EUR" (Str.parseFloat "1") "0.92" 7 "12:00:00" a0) in
  getHistory a = getHistory a2 /\
  map e_id (getHistory a) = [7; 7] /\
  map e_converted (getHistory a) = ["11.04"; "0.92"] /\
  getHistory (deleteHistoryItem 7 a) = [].
Proof.
  intros sameMs a0 a a2.
  assert (Ha : getHistory a = getHistory a2) by (vm_compute; reflexivity).
  destruct (C5_same_clock_reading_deletes_both a0 7
              "USD" "EUR" (Str.parseFloat "1") "0.92" "12:00:00"
              "USD" "EUR" (Str.parseFloat "12") "11.04" "12:00:00")
    as (e1 & e2 & rest & _ & _ & _ & _ & _ & _ & Hlen);
    [vm_compute; reflexivity | vm_compute; reflexivity |].
  fold a2 in Hlen.
  split; [exact Ha|]. split; [vm_compute; reflexivity|].
  split; [vm_compute; reflexivity|].
  rewrite getHistory_deleteHistoryItem, Ha, <- getHistory_deleteHistoryItem.
  assert (H2 : length (getHistory a2) = 2%nat) by (vm_compute; reflexivity).
  rewrite H2 in Hlen.
  destruct (getHistory (deleteHistoryItem 7 a2)); [reflexivity|].
  cbn [length] in Hlen. lia.
Defined.

Lemma isDuplicate_true_iff (e : HistoryEntry) from to amt converted :
  isDuplicate (Some e) from to amt converted = true <->
  e_fromCurr e = from /\ e_toCurr e = to /\
  amountEq (e_amount e) amt = true /\ e_converted e = converted.
Proof.
  unfold isDuplicate. rewrite !andb_true_iff, !String.eqb_eq. tauto.
Qed.

Lemma amountEq_json_finite (amt : number) :
  Num.isFinite amt = true -> amountEq (jsonNumber (Some amt)) amt = true.
Proof.
  destruct amt as [s|s| |s m e]; try discriminate; intros _.
  - now destruct s.
  - apply (strict_eq_finite_refl (S754_finite s m e)). reflexivity.
Qed.

(** After a finite amount has been appended, the same tuple is a
    duplicate of the most recent stored entry. *)
Lemma addToHistory_then_duplicate from to amt converted id stamp (a : App) :
  Num.isFinite amt = true ->
  isDuplicate
    (head (getHistory (addToHistory from to amt converted id stamp a)))
    from to amt converted = true.
Proof.
  intros Hfin. rewrite getHistory_addToHistory.
  destruct (isDuplicate (head (getHistory a)) from to amt converted) eqn:Ed;
    [exact Ed|].
  cbn [take head]. apply isDuplicate_true_iff. cbn.
  repeat split. now apply amountEq_json_finite.
Qed.

(** The part of C7 that holds: a tuple with a finite amount appended
    twice in a row is stored once, the second call changing nothing; and a
    tuple that is not a duplicate of the most recent stored entry is put in
    front of the list. *)
Lemma addToHistory_repeat_finite from to amt converted id stamp id' stamp' (a : App) :
  Num.isFinite amt = true ->
  let a1 := addToHistory from to amt converted id stamp a in
  addToHistory from to amt converted id' stamp' a1 = a1.
Proof.
  intros Hfin a1. unfold addToHistory at 1. fold a1.
  replace (isDuplicate (hd_error (getHistory a1)) from to amt converted) with true;
    [reflexivity|].
  symmetry. now apply addToHistory_then_duplicate.
Qed.

(** A tuple that differs from the most recent stored entry is recorded:
    its entry is put in front of the stored history, which is then cut to
    50 entries. *)
Lemma addToHistory_differing_prepended from to amt converted id stamp (a : App) :
  (forall e, head (getHistory a) = Some e ->
     e_fromCurr e <> from \/ e_toCurr e <> to \/
     amountEq (e_amount e) amt = false \/ e_converted e <> converted) ->
  getHistory (addToHistory from to amt converted id stamp a) =
    take 50 (jsonEntry (mkEntry id from to (Some amt) converted stamp)
               :: getHistory a).
Proof.
  intros Hdiff. rewrite getHistory_addToHistory.
  destruct (head (getHistory a)) as [e|] eqn:Eh; [|reflexivity].
  destruct (isDuplicate (Some e) from to amt converted) eqn:Ed; [|reflexivity].
  apply isDuplicate_true_iff in Ed as (? & ? & ? & ?).
  destruct (Hdiff e eq_refl) as [?|[?|[?|?]]]; congruence.
Qed.

(** C7, on the code.  The amount "Infinity" passes validation; its entry
    is stored with the amount [null], which is not [===] to the amount of
    the next call, so converting the same input again stores a second
    entry with the same currencies, amount and converted amount. *)
Theorem C7_infinite_amount_stored_twice :
  let a := withRate "EUR" "0.92" (withAmount "Infinity" page) in
  let a1 := performConversion 1 "12:00:01" a in
  let a2 := performConversion 2 "12:00:02" a1 in
  Str.parseFloat (amount_value a) = Num.infinity /\
  map e_converted (getHistory a1) = ["Infinity"] /\
  map e_amount (getHistory a1) = [None] /\
  map e_converted (getHistory a2) = ["Infinity"; "Infinity"] /\
  getHistory
    (addToHistory "USD" "EUR" Num.infinity "Infinity" 2 "12:00:02"
       (addToHistory "USD" "EUR" Num.infinity "Infinity" 1 "12:00:01" page)) =
  [mkEntry 2 "USD" "EUR" None "Infinity" "12:00:02";
   mkEntry 1 "USD" "EUR" None "Infinity" "12:00:01"].
Proof. vm_compute. repeat split. Qed.

Lemma length_getHistory_performConversion (id : Z) (stamp : string) (a : App) :
  (length (getHistory a) <= 50 ->
   length (getHistory (performConversion id stamp a)) <= 50)%nat.
Proof.
  intros Hb.
  destruct (Num.ltb Num.zero (Str.parseFloat (amount_value a))) eqn:Hpos.
  - rewrite (performConversion_valid a id stamp Hpos).
    destruct (lookupRate a) as [rate|]; [|exact Hb].
    destruct (Num.truthy rate); [|exact Hb]. cbv zeta.
    rewrite getHistory_addToHistory.
    destruct (isDuplicate _ _ _ _ _); [exact Hb|].
    rewrite length_take. lia.
  - destruct (performConversion_invalid a id stamp Hpos) as [-> _].
    unfold validateInput.
    repeat match goal with
           | |- context [if ?b then _ else _] => destruct b
           end; exact Hb.
Qed.

Lemma getHistory_startAutoUpdate (a : App) :
  getHistory (startAutoUpdate a) = getHistory a.
Proof. unfold startAutoUpdate. now destruct (handleSet _). Qed.

(** The bound is an invariant of the page: no handler lets the stored
    history grow beyond 50 entries. *)
Lemma step_history_bounded (ev : Event) (a : App) :
  (length (getHistory a) <= 50 -> length (getHistory (step ev a)) <= 50)%nat.
Proof.
  intros Hb.
  assert (Hload : forall b, getHistory (loadHistory b) = getHistory b)
    by apply getHistory_loadHistory.
  destruct ev; cbn [step].
  - rewrite getHistory_startAutoUpdate.
    change (getHistory (fetchRatesOnce ?b)) with (getHistory b).
    now rewrite Hload.
  - unfold convertIfValid. destruct (isValidAmount _); [|exact Hb].
    now apply length_getHistory_performConversion.
  - now apply length_getHistory_performConversion.
  - unfold convertIfValid. destruct (isValidAmount _); [|exact Hb].
    now apply length_getHistory_performConversion.
  - unfold convertIfValid. destruct (isValidAmount _); [|exact Hb].
    now apply length_getHistory_performConversion.
  - unfold swapCurrencies. destruct (isValidAmount _); [|exact Hb].
    now apply length_getHistory_performConversion.
  - exact Hb.
  - unfold deleteAllHistory. destruct confirmed; [|exact Hb].
    rewrite Hload. cbn. lia.
  - rewrite getHistory_deleteHistoryItem.
    etransitivity; [apply List.filter_length_le | exact Hb].
  - unfold toggleAutoUpdateMode.
    destruct (autoUpdateEnabled _); [|exact Hb].
    now rewrite getHistory_startAutoUpdate.
  - unfold fireTimer. destruct (timers a !! h) as [t|]; [|exact Hb].
    set (b := if repeating t then a else clearInterval h a).
    assert (Hb' : (length (getHistory b) <= 50)%nat)
      by (subst b; now destruct (repeating t)).
    destruct (callback t); [| |exact Hb'].
    + unfold updateStatus. destruct (lastUpdateTime b); [|exact Hb'].
      now destruct (_ <? 60).
    + unfold autoUpdateTick. destruct (autoUpdateEnabled b); [|exact Hb'].
      cbn [setTimeout addTimer]. destruct (isValidAmount _); [|exact Hb'].
      now apply length_getHistory_performConversion.
  - unfold settle. destruct (pending a !! i); [|exact Hb].
    destruct o as [|[] [| |rates]]; try exact Hb.
    cbn [fetchRatesOnce_resume]. unfold updateStatus. cbn.
    now destruct (_ <? 60).
  - now destruct (handleSet _).
Qed.

Lemma run_history_bounded (evs : list Event) (a : App) :
  (length (getHistory a) <= 50 -> length (getHistory (run evs a)) <= 50)%nat.
Proof.
  revert a. induction evs as [|ev evs IH]; intros a Hb; [exact Hb|].
  cbn. apply IH. now apply step_history_bounded.
Qed.

(** C8. After an append the stored history has at most 50 entries
    whenever it had at most 50 before, and this bound survives every
    handler of the page; an append that is not skipped as a duplicate
    stores the new entry in front of the first 49 of a full list, so the
    oldest entry is dropped and the order is kept. *)
Theorem C8_history_capped_at_50 from to amt converted id stamp (a : App) :
  let h := getHistory a in
  let h' := getHistory (addToHistory from to amt converted id stamp a) in
  let entry := jsonEntry (mkEntry id from to (Some amt) converted stamp) in
  (length h <= 50 -> length h' <= 50)%nat /\
  (length h <= 50 -> forall evs, length (getHistory (run evs a)) <= 50)%nat /\
  (isDuplicate (head h) from to amt converted = false ->
   h' = take 50 (entry :: h) /\
   (length h' <= 50)%nat /\
   (length h < 50 -> h' = entry :: h)%nat /\
   (length h = 50%nat -> h' = entry :: take 49 h /\ length h' = 50%nat)).
Proof.
  intros h h' entry. subst h h' entry. rewrite getHistory_addToHistory.
  split; [|split].
  - destruct (isDuplicate _ _ _ _ _); [trivial|].
    intros _. rewrite length_take. lia.
  - intros Hb evs. now apply run_history_bounded.
  - intros ->. split; [reflexivity|].
    split; [rewrite length_take; lia|]. split.
    + intros Hlt. apply take_ge. cbn [length]. lia.
    + intros H50. cbn [take]. split; [reflexivity|].
      cbn [length]. rewrite length_take. lia.
Qed.

(** C8 at work: with ids 50 down to 1 stored, appending id 51 leaves ids
    51 down to 2. *)
Lemma C8_witness_51st_evicts_oldest :
  let a' := addToHistory "USD" "EUR" (Num.of_Z 51) "51.00" 51 "12:00:51" fullPage in
  map e_id (getHistory fullPage) = map Z.of_nat (rev (seq 1 50)) /\
  map e_id (getHistory a') = map Z.of_nat (rev (seq 2 50)) /\
  length (getHistory a') = 50%nat.
Proof.
  cbv zeta.
  destruct (C8_history_capped_at_50 "USD" "EUR" (Num.of_Z 51) "51.00" 51
              "12:00:51" fullPage) as (_ & _ & Hnew).
  destruct Hnew as (_ & _ & _ & Hfull); [vm_compute; reflexivity|].
  destruct Hfull as [Hh Hl]; [vm_compute; reflexivity|].
  split; [vm_compute; reflexivity|]. split; [|exact Hl].
  rewrite Hh. vm_compute. reflexivity.
Defined.

(** * Further properties of the script *)

(** ** The two validity checks *)

(** [isValidAmount], the silent check of the listeners, and
    [validateInput], the reporting check of [performConversion], accept
    the same amounts: a string of white space only is non-empty for the
    first check, but it does not parse. *)
Theorem isValidAmount_agrees_with_validateInput (a : App) :
  isValidAmount a = fst (validateInput a).
Proof.
  destruct (Num.ltb Num.zero (Str.parseFloat (amount_value a))) eqn:Hpos.
  - rewrite (validateInput_positive a Hpos). unfold isValidAmount.
    rewrite Hpos, (positive_not_NaN _ Hpos).
    destruct (amount_value a) eqn:Ev; [discriminate | reflexivity].
  - destruct (performConversion_invalid a 0 "" Hpos) as [_ ->].
    unfold isValidAmount. rewrite Hpos. now rewrite andb_false_r.
Qed.

(** An amount that is not a positive number stops the conversion at
    validation: exactly one of the three validation messages is shown,
    and the result panel, the rate line, the stored history and the cache
    stay as they were. *)
Theorem invalid_amount_only_shows_message (a : App) (id : Z) (stamp : string) :
  Num.ltb Num.zero (Str.parseFloat (amount_value a)) = false ->
  exists message,
    In message validationMessages /\
    performConversion id stamp a = showError message a /\
    getHistory (performConversion id stamp a) = getHistory a /\
    resultAmount_textContent (performConversion id stamp a) =
      resultAmount_textContent a /\
    resultContainer_show (performConversion id stamp a) =
      resultContainer_show a /\
    ratesCache (performConversion id stamp a) = ratesCache a.
Proof.
  intros Hneg.
  destruct (performConversion_invalid a id stamp Hneg) as [Hp Hf].
  rewrite Hp. revert Hf. unfold validateInput, validationMessages.
  destruct (Str.isEmpty _).
  { intros _. eexists. split; [left; reflexivity|]. now repeat split. }
  destruct (Num.isNaN _).
  { intros _. eexists. split; [right; left; reflexivity|]. now repeat split. }
  destruct (Num.leb _ _); [|discriminate].
  intros _. eexists. split; [right; right; left; reflexivity|].
  now repeat split.
Qed.

Lemma invalid_amount_witness_negative :
  let a := withRate "EUR" "0.92" (withAmount "-5" page) in
  performConversion 1 "12:00:01" a = showError "Amount must be greater than 0" a /\
  getHistory (performConversion 1 "12:00:01" a) = [].
Proof.
  cbv zeta.
  destruct (invalid_amount_only_shows_message
              (withRate "EUR" "0.92" (withAmount "-5" page)) 1 "12:00:01")
    as (m & _ & _ & Hh & _); [vm_compute; reflexivity|].
  split; [vm_compute; reflexivity|].
  rewrite Hh. vm_compute. reflexivity.
Defined.

(** What a conversion with a valid amount adds to the trace of errors:
    nothing, or the failure message. *)
Lemma errorsShown_valid_conversion (id : Z) (stamp : string) (a : App) :
  Num.ltb Num.zero (Str.parseFloat (amount_value a)) = true ->
  errorsShown (performConversion id stamp a) = errorsShown a \/
  errorsShown (performConversion id stamp a) =
    (errorsShown a ++ ["Conversion failed. Please try again."])%list.
Proof.
  intros Hpos. rewrite (performConversion_valid a id stamp Hpos).
  destruct (lookupRate a) as [rate|]; [|now right].
  destruct (Num.truthy rate); [|now right].
  left. cbv zeta. now rewrite errorsShown_addToHistory.
Qed.

Lemma errorsShown_convertIfValid (c : Clock) (a : App) :
  errorsShown (convertIfValid c a) = errorsShown a \/
  errorsShown (convertIfValid c a) =
    (errorsShown a ++ ["Conversion failed. Please try again."])%list.
Proof.
  unfold convertIfValid. destruct (isValidAmount a) eqn:Hv; [|now left].
  apply errorsShown_valid_conversion. now apply isValidAmount_positive.
Qed.

Lemma errorsShown_autoUpdateTick (id : Z) (stamp : string) (a : App) :
  errorsShown (autoUpdateTick id stamp a) = errorsShown a \/
  errorsShown (autoUpdateTick id stamp a) =
    (errorsShown a ++ ["Conversion failed. Please try again."])%list.
Proof.
  unfold autoUpdateTick. destruct (autoUpdateEnabled a); [|now left].
  cbn [setTimeout addTimer]. set (b := set_timers _ _ _).
  destruct (isValidAmount b) eqn:Hv; [|now left].
  change (errorsShown a) with (errorsShown b).
  apply errorsShown_valid_conversion. now apply isValidAmount_positive.
Qed.

(** Typing an amount, changing a currency, swapping and the timers never
    show a validation message: these handlers convert only an amount that
    [isValidAmount] accepts, so all they can add to the errors shown is the
    "Conversion failed" message. *)
Theorem guarded_handlers_show_no_validation_message (ev : Event) (a : App) :
  guardedByIsValidAmount ev = true ->
  errorsShown (step ev a) = errorsShown a \/
  errorsShown (step ev a) =
    (errorsShown a ++ ["Conversion failed. Please try again."])%list.
Proof.
  destruct ev; try discriminate; intros _; cbn [step].
  - apply (errorsShown_convertIfValid c
             (set_amountError_show false (set_amount_value value a))).
  - apply (errorsShown_convertIfValid c
             (set_currencies value (toCurrency_value a) a)).
  - apply (errorsShown_convertIfValid c
             (set_currencies (fromCurrency_value a) value a)).
  - unfold swapCurrencies.
    set (b := fetchRatesOnce _).
    destruct (isValidAmount b) eqn:Hv; [|now left].
    change (errorsShown a) with (errorsShown b).
    apply errorsShown_valid_conversion. now apply isValidAmount_positive.
  - unfold fireTimer. destruct (timers a !! h) as [t|]; [|now left].
    set (b := if repeating t then a else clearInterval h a).
    assert (Hb : errorsShown b = errorsShown a)
      by (subst b; now destruct (repeating t)).
    rewrite <- Hb. destruct (callback t).
    + left. unfold updateStatus. destruct (lastUpdateTime b); [|reflexivity].
      now destruct (_ <? 60).
    + apply errorsShown_autoUpdateTick.
    + now left.
Qed.

Lemma guarded_handlers_witness_typing_minus :
  let a := withRate "EUR" "0.92" page in
  errorsShown (step (AmountInput "-" (mkClock 1 1 "12:00:01")) a) = [] /\
  errorsShown (step (AmountEnter (mkClock 2 2 "12:00:02"))
                 (step (AmountInput "-" (mkClock 1 1 "12:00:01")) a)) =
    ["Please enter a valid number"].
Proof.
  cbv zeta.
  destruct (guarded_handlers_show_no_validation_message
              (AmountInput "-" (mkClock 1 1 "12:00:01"))
              (withRate "EUR" "0.92" page) eq_refl) as [H|H].
  - split; [rewrite H; vm_compute; reflexivity | vm_compute; reflexivity].
  - exfalso. vm_compute in H. discriminate.
Defined.

(** ** The status line *)

(** Before the first successful fetch [updateStatus] changes nothing.
    Afterwards it rewrites the status line and nothing else: whole
    seconds while less than a minute has passed since the last update,
    whole minutes from then on. *)
Theorem updateStatus_seconds_then_minutes (a : App) (now : Z) :
  (lastUpdateTime a = None -> updateStatus now a = a) /\
  (forall t, lastUpdateTime a = Some t ->
     set_lastUpdated_textContent (lastUpdated_textContent a)
       (updateStatus now a) = a /\
     (now - t < 60000 ->
      lastUpdated_textContent (updateStatus now a) =
        "Last updated: " ++ Str.ofInteger ((now - t) / 1000) ++ "s ago") /\
     (60000 <= now - t ->
      lastUpdated_textContent (updateStatus now a) =
        "Last updated: " ++ Str.ofInteger ((now - t) / 60000) ++ "m ago")).
Proof.
  unfold updateStatus. split; [now intros ->|].
  intros t ->. split; [|split].
  - destruct (_ <? 60); now destruct a.
  - intros Hlt.
    assert ((now - t) / 1000 < 60) by (apply Z.div_lt_upper_bound; lia).
    destruct (Z.ltb_spec ((now - t) / 1000) 60); [reflexivity | lia].
  - intros Hge.
    assert (60 <= (now - t) / 1000) by (apply Z.div_le_lower_bound; lia).
    destruct (Z.ltb_spec ((now - t) / 1000) 60); [lia|].
    cbn. now rewrite Z.div_div by lia.
Qed.

Lemma updateStatus_witness_59s_and_60s :
  let a := set_lastUpdateTime (Some 1000) page in
  lastUpdated_textContent (updateStatus 60999 a) = "Last updated: 59s ago" /\
  lastUpdated_textContent (updateStatus 61000 a) = "Last updated: 1m ago" /\
  updateStatus 61000 page = page.
Proof.
  cbv zeta.
  destruct (updateStatus_seconds_then_minutes
              (set_lastUpdateTime (Some 1000) page) 60999) as [_ H1].
  destruct (updateStatus_seconds_then_minutes
              (set_lastUpdateTime (Some 1000) page) 61000) as [_ H2].
  destruct (updateStatus_seconds_then_minutes page 61000) as [H3 _].
  destruct (H1 1000 eq_refl) as (_ & Hs & _).
  destruct (H2 1000 eq_refl) as (_ & _ & Hm).
  split; [rewrite Hs by lia; vm_compute; reflexivity|].
  split; [rewrite Hm by lia; vm_compute; reflexivity|].
  apply H3. reflexivity.
Defined.

(** ** One auto-update interval, and the status interval *)

Lemma sameTimers_invariant (a a' : App) :
  sameTimers a a' -> schedulerInvariant a -> schedulerInvariant a'.
Proof.
  intros (Ht & Hn & Hu) [Hone (H1 & H2 & H3)].
  unfold schedulerInvariant, oneAutoUpdate, statusIntervalLive.
  rewrite Ht, Hn, Hu. auto.
Qed.

Lemma addTimer_invariant (t : Timer) (a : App) :
  callback t <> AutoUpdateCb ->
  schedulerInvariant a -> schedulerInvariant (snd (addTimer t a)).
Proof.
  intros Hcb [Hone (H1 & H2 & H3)]. unfold addTimer. cbn [snd]. split.
  - intros h t' Hl Hc. cbn in Hl |- *.
    apply lookup_insert_Some in Hl as [[_ <-]|[_ Hl]]; [contradiction|].
    now apply Hone with t'.
  - unfold statusIntervalLive. cbn. split; [|split; [lia | exact H3]].
    rewrite lookup_insert_ne by lia. exact H1.
Qed.

Lemma clearInterval_invariant (h : N) (a : App) :
  h <> 1%N ->
  schedulerInvariant a -> schedulerInvariant (clearInterval h a).
Proof.
  intros Hh [Hone (H1 & H2 & H3)]. unfold clearInterval. split.
  - intros h' t Hl Hc. cbn in Hl |- *.
    apply lookup_delete_Some in Hl as [_ Hl]. now apply Hone with t.
  - unfold statusIntervalLive. cbn. split; [|split; [exact H2 | exact H3]].
    rewrite lookup_delete_ne by congruence. exact H1.
Qed.

Lemma startAutoUpdate_invariant (a : App) :
  schedulerInvariant a -> schedulerInvariant (startAutoUpdate a).
Proof.
  intros [Hone (H1 & H2 & H3)]. unfold startAutoUpdate.
  set (b := match handleSet (updateIntervalId a) with
            | Some h => clearInterval h a
            | None => a
            end).
  assert (Hn : nextHandle b = nextHandle a)
    by (subst b; now destruct (handleSet _)).
  assert (Hb1 : timers b !! 1%N = Some (mkTimer UpdateStatusCb 1000 true)).
  { subst b. destruct (handleSet _) as [h|] eqn:Eh; [|exact H1].
    apply handleSet_Some in Eh as [Eh _]. apply H3 in Eh. cbn.
    rewrite lookup_delete_ne by lia. exact H1. }
  assert (Hnone : forall h t, timers b !! h = Some t -> callback t <> AutoUpdateCb).
  { intros h t Hl Hc. subst b.
    destruct (handleSet (updateIntervalId a)) as [h0|] eqn:Eh.
    - apply handleSet_Some in Eh as [Eh _]. cbn in Hl.
      apply lookup_delete_Some in Hl as [Hne Hl].
      specialize (Hone h t Hl Hc). congruence.
    - specialize (Hone h t Hl Hc). rewrite Hone in Eh.
      destruct h; [|discriminate].
      assert (2 <= 0)%N by (apply H3; exact Hone). lia. }
  split.
  - intros h t Hl Hc. cbn in Hl |- *.
    apply lookup_insert_Some in Hl as [[<- _]|[_ Hl]]; [reflexivity|].
    now apply Hnone in Hl.
  - unfold statusIntervalLive. cbn. rewrite Hn. split; [|split; [lia|]].
    + rewrite lookup_insert_ne by lia. exact Hb1.
    + intros h [= <-]. exact H2.
Qed.

Lemma autoUpdateTick_invariant (id : Z) (stamp : string) (a : App) :
  schedulerInvariant a -> schedulerInvariant (autoUpdateTick id stamp a).
Proof.
  intros Hinv. unfold autoUpdateTick.
  destruct (autoUpdateEnabled a); [|exact Hinv].
  set (b := fetchRatesOnce (set_statusDot_updating true a)).
  assert (Hb : schedulerInvariant (snd (setTimeout StopPulseCb 1000 b)))
    by (apply addTimer_invariant; [discriminate | exact Hinv]).
  cbn [setTimeout addTimer] in *. cbn [snd] in Hb.
  destruct (isValidAmount _); [|exact Hb].
  eapply sameTimers_invariant; [apply sameTimers_performConversion | exact Hb].
Qed.

Lemma convertIfValid_invariant (c : Clock) (a : App) :
  schedulerInvariant a -> schedulerInvariant (convertIfValid c a).
Proof.
  intros Hinv. unfold convertIfValid. destruct (isValidAmount a); [|exact Hinv].
  eapply sameTimers_invariant; [apply sameTimers_performConversion | exact Hinv].
Qed.

Lemma step_invariant (ev : Event) (a : App) :
  schedulerInvariant a -> schedulerInvariant (step ev a).
Proof.
  intros Hinv. destruct ev; cbn [step].
  - apply startAutoUpdate_invariant.
    apply (sameTimers_invariant a); [|exact Hinv].
    unfold loadHistory, sameTimers. now destruct (getHistory a).
  - now apply convertIfValid_invariant.
  - eapply sameTimers_invariant; [apply sameTimers_performConversion | exact Hinv].
  - now apply convertIfValid_invariant.
  - now apply convertIfValid_invariant.
  - unfold swapCurrencies. destruct (isValidAmount _); [|exact Hinv].
    eapply sameTimers_invariant; [apply sameTimers_performConversion | exact Hinv].
  - exact Hinv.
  - apply (sameTimers_invariant a); [|exact Hinv].
    unfold deleteAllHistory, loadHistory, sameTimers.
    destruct confirmed; [now destruct (getHistory _) | now repeat split].
  - apply (sameTimers_invariant a); [|exact Hinv].
    unfold deleteHistoryItem, loadHistory, sameTimers.
    now destruct (getHistory _).
  - unfold toggleAutoUpdateMode.
    set (b := set_toggleAutoUpdate _ _ _).
    assert (Hb : schedulerInvariant b) by exact Hinv.
    destruct (autoUpdateEnabled b);
      [now apply startAutoUpdate_invariant | exact Hb].
  - unfold fireTimer. destruct (timers a !! h) as [t|] eqn:El; [|exact Hinv].
    set (b := if repeating t then a else clearInterval h a).
    assert (Hb : schedulerInvariant b).
    { subst b. destruct (repeating t) eqn:Er; [exact Hinv|].
      apply clearInterval_invariant; [|exact Hinv].
      destruct Hinv as [_ (H1 & _ & _)]. intros ->.
      rewrite H1 in El. injection El as <-. discriminate. }
    destruct (callback t).
    + apply (sameTimers_invariant b); [|exact Hb].
      unfold updateStatus, sameTimers. destruct (lastUpdateTime b);
        [now destruct (_ <? 60) | now repeat split].
    + now apply autoUpdateTick_invariant.
    + exact Hb.
  - apply (sameTimers_invariant a); [|exact Hinv].
    unfold settle, sameTimers. destruct (pending a !! i); [|now repeat split].
    destruct o as [|[] [| |rates]]; try (now repeat split).
    cbn [fetchRatesOnce_resume]. unfold updateStatus. cbn.
    now destruct (_ <? 60).
  - destruct (handleSet _) as [h|] eqn:Eh; [|exact Hinv].
    apply handleSet_Some in Eh as [Eh _].
    apply clearInterval_invariant; [|exact Hinv].
    destruct Hinv as [_ (_ & _ & H3)]. apply H3 in Eh. lia.
Qed.

Lemma run_invariant (evs : list Event) (a : App) :
  schedulerInvariant a -> schedulerInvariant (run evs a).
Proof.
  revert a. induction evs as [|ev evs IH]; intros a Hinv; [exact Hinv|].
  cbn. apply IH. now apply step_invariant.
Qed.

Lemma scriptLoaded_invariant (from to : string) (stored : option (list HistoryEntry)) :
  schedulerInvariant (scriptLoaded from to stored).
Proof.
  split.
  - intros h t Hl Hc. cbn in Hl.
    apply lookup_singleton_Some in Hl as [_ <-]. discriminate.
  - unfold statusIntervalLive. cbn. split; [|split; [lia | discriminate]].
    apply lookup_singleton_eq.
Qed.

Lemma startAutoUpdate_arms (a : App) :
  exists h,
    updateIntervalId (startAutoUpdate a) = Some h /\
    timers (startAutoUpdate a) !! h =
      Some (mkTimer AutoUpdateCb UPDATE_FREQUENCY true).
Proof.
  unfold startAutoUpdate.
  destruct (handleSet (updateIntervalId a)); cbn;
    (eexists; split; [reflexivity | apply lookup_insert_eq]).
Qed.

(** Whatever the user and the network do after the script is loaded, at
    most one auto-update interval is live, and it is the one
    [updateIntervalId] holds; calling [startAutoUpdate] again, even twice
    in a row, leaves exactly one, under the handle in [updateIntervalId]. *)
Theorem one_auto_update_interval
    (from to : string) (stored : option (list HistoryEntry)) (evs : list Event) :
  let a := run evs (scriptLoaded from to stored) in
  oneAutoUpdate a /\
  (let a' := startAutoUpdate (startAutoUpdate a) in
   exists h,
     updateIntervalId a' = Some h /\
     timers a' !! h = Some (mkTimer AutoUpdateCb UPDATE_FREQUENCY true) /\
     forall h' t, timers a' !! h' = Some t -> callback t = AutoUpdateCb -> h' = h).
Proof.
  intros a.
  assert (Hinv : schedulerInvariant a)
    by apply run_invariant, scriptLoaded_invariant.
  split; [exact (proj1 Hinv)|].
  intros a'.
  assert (Hinv' : schedulerInvariant a')
    by now apply startAutoUpdate_invariant, startAutoUpdate_invariant.
  destruct (startAutoUpdate_arms (startAutoUpdate a)) as (h & Hu & Hl).
  fold a' in Hu, Hl. exists h. split; [exact Hu|]. split; [exact Hl|].
  intros h' t Hl' Hc. destruct Hinv' as [Hone _].
  specialize (Hone h' t Hl' Hc). congruence.
Qed.

(** When the page is left, the handler cancels the auto-update interval,
    so that none is live afterwards; the status interval armed when the
    script was evaluated is still live. *)
Theorem beforeunload_cancels_auto_update_only
    (from to : string) (stored : option (list HistoryEntry)) (evs : list Event) :
  let a' := step BeforeUnload (run evs (scriptLoaded from to stored)) in
  (forall h t, timers a' !! h = Some t -> callback t <> AutoUpdateCb) /\
  timers a' !! 1%N = Some (mkTimer UpdateStatusCb 1000 true).
Proof.
  intros a'.
  assert (Hinv : schedulerInvariant (run evs (scriptLoaded from to stored)))
    by apply run_invariant, scriptLoaded_invariant.
  assert (Hinv' : schedulerInvariant a') by now apply step_invariant.
  split; [|exact (proj1 (proj2 Hinv'))].
  subst a'. cbn [step]. set (a := run evs _) in *.
  destruct Hinv as [Hone (_ & _ & H3)].
  intros h t Hl Hc.
  destruct (handleSet (updateIntervalId a)) as [h0|] eqn:Eh.
  - apply handleSet_Some in Eh as [Eh _]. cbn in Hl.
    apply lookup_delete_Some in Hl as [Hne Hl].
    specialize (Hone h t Hl Hc). congruence.
  - specialize (Hone h t Hl Hc). rewrite Hone in Eh.
    destruct h; [|discriminate]. apply H3 in Hone. lia.
Qed.

(** A tick of the enabled auto-update marks the status dot and arms a
    one-shot timer of one second under the next handle; when that timer
    fires the mark is removed and the timer is gone, so the timer table is
    what it was before the tick, and a second firing does nothing. *)
Theorem tick_pulse_is_transient
    (a : App) (id : Z) (stamp : string) (c : Clock) :
  timersWellFormed a ->
  autoUpdateEnabled a = true ->
  let h := nextHandle a in
  let a1 := autoUpdateTick id stamp a in
  let a2 := fireTimer h c a1 in
  statusDot_updating a1 = true /\
  timers a1 !! h = Some (mkTimer StopPulseCb 1000 false) /\
  statusDot_updating a2 = false /\
  timers a2 = timers a /\
  fireTimer h c a2 = a2.
Proof.
  intros (_ & Hfresh & _) He h a1 a2.
  assert (Hnone : timers a !! h = None).
  { destruct (timers a !! h) as [t|] eqn:El; [|reflexivity].
    apply Hfresh in El. subst h. lia. }
  assert (Ha1 : timers a1 = <[h := mkTimer StopPulseCb 1000 false]> (timers a) /\
                statusDot_updating a1 = true).
  { subst a1. unfold autoUpdateTick. rewrite He. cbn [setTimeout addTimer].
    set (b := set_timers _ _ _).
    destruct (isValidAmount b); [|now split].
    pose proof (performConversion_frame id stamp b) as Hf.
    unfold onlyConversionFields in Hf. rewrite Hf. now split. }
  destruct Ha1 as [Ht Hd].
  assert (Hl : timers a1 !! h = Some (mkTimer StopPulseCb 1000 false))
    by (rewrite Ht; apply lookup_insert_eq).
  assert (Ha2 : a2 = set_statusDot_updating false (clearInterval h a1))
    by (subst a2; unfold fireTimer; now rewrite Hl).
  assert (Ht2 : timers a2 = timers a).
  { rewrite Ha2. cbn. rewrite Ht. now apply delete_insert_id. }
  repeat split; try assumption.
  - now rewrite Ha2.
  - unfold fireTimer. now rewrite Ht2, Hnone.
Qed.

Lemma tick_pulse_witness_loaded_page :
  let a := step DOMContentLoaded page in
  let a1 := autoUpdateTick 5000 "12:00:05" a in
  let a2 := fireTimer 3 (mkClock 6000 6000 "12:00:06") a1 in
  nextHandle a = 3%N /\ statusDot_updating a1 = true /\
  statusDot_updating a2 = false /\ timers a2 = timers a.
Proof.
  cbv zeta.
  destruct (tick_pulse_is_transient (step DOMContentLoaded page) 5000
              "12:00:05" (mkClock 6000 6000 "12:00:06"))
    as (H1 & _ & H2 & H3 & _).
  - apply (step_wf DOMContentLoaded page), scriptLoaded_wf.
  - vm_compute. reflexivity.
  - cbv zeta in H1, H2, H3. split; [vm_compute; reflexivity|].
    split; [exact H1|]. split; [exact H2 | exact H3].
Defined.

(** Starting the page loads the history panel, sends the rate request
    twice (once directly and once from [startAutoUpdate]), both for the
    currency selected at that moment, and arms one auto-update interval;
    the cache is not touched and no error is shown. *)
Theorem page_start_sends_two_requests (a : App) :
  let a' := step DOMContentLoaded a in
  pending a' =
    (pending a ++ [(API_URL ++ fromCurrency_value a)%string;
                   (API_URL ++ fromCurrency_value a)%string])%list /\
  updateIntervalId a' = Some (nextHandle a) /\
  timers a' !! nextHandle a = Some (mkTimer AutoUpdateCb UPDATE_FREQUENCY true) /\
  panelShowsStorage a' /\
  getHistory a' = getHistory a /\
  ratesCache a' = ratesCache a /\
  errorsShown a' = errorsShown a.
Proof.
  cbv zeta. cbn [step].
  assert (Hpanel : panelShowsStorage (loadHistory a)).
  { unfold panelShowsStorage. rewrite getHistory_loadHistory.
    unfold loadHistory. destruct (getHistory a); now split. }
  assert (Hframe : exists x y, loadHistory a = set_historyList x y a)
    by (unfold loadHistory; destruct (getHistory a); eauto).
  assert (Hsame : forall b : App,
            historyList (startAutoUpdate (fetchRatesOnce b)) = historyList b /\
            deleteAllBtn_display (startAutoUpdate (fetchRatesOnce b)) =
              deleteAllBtn_display b /\
            getHistory (startAutoUpdate (fetchRatesOnce b)) = getHistory b).
  { intros b. unfold startAutoUpdate.
    destruct (handleSet (updateIntervalId (fetchRatesOnce b))); now repeat split. }
  split; [|split; [|split; [|split; [|split]]]].
  - destruct Hframe as (x & y & ->). unfold startAutoUpdate.
    destruct (handleSet _); cbn; now rewrite <- app_assoc.
  - destruct Hframe as (x & y & ->). unfold startAutoUpdate.
    now destruct (handleSet _).
  - destruct Hframe as (x & y & ->). unfold startAutoUpdate.
    destruct (handleSet _); cbn; apply lookup_insert_eq.
  - destruct (Hsame (loadHistory a)) as (Hh & Hd & Hg).
    unfold panelShowsStorage in *. now rewrite Hh, Hd, Hg.
  - destruct (Hsame (loadHistory a)) as (_ & _ & ->).
    apply getHistory_loadHistory.
  - destruct Hframe as (x & y & ->). unfold startAutoUpdate.
    now destruct (handleSet _).
Qed.

(** ** The history panel and the stored history *)

Lemma panel_loadHistory (a : App) : panelShowsStorage (loadHistory a).
Proof.
  unfold panelShowsStorage. rewrite getHistory_loadHistory.
  unfold loadHistory. destruct (getHistory a); now split.
Qed.

Lemma panel_same (a a' : App) :
  getHistory a' = getHistory a -> historyList a' = historyList a ->
  deleteAllBtn_display a' = deleteAllBtn_display a ->
  panelShowsStorage a -> panelShowsStorage a'.
Proof. unfold panelShowsStorage. now intros -> -> ->. Qed.

Lemma panel_addToHistory from to amt converted id stamp (a : App) :
  panelShowsStorage a ->
  panelShowsStorage (addToHistory from to amt converted id stamp a).
Proof.
  intros Hp. unfold addToHistory.
  destruct (isDuplicate _ _ _ _ _); [exact Hp | apply panel_loadHistory].
Qed.

Lemma panel_performConversion (id : Z) (stamp : string) (a : App) :
  panelShowsStorage a -> panelShowsStorage (performConversion id stamp a).
Proof.
  intros Hp. unfold performConversion, validateInput.
  destruct (Str.isEmpty _); [exact Hp|].
  destruct (Num.isNaN _); [exact Hp|].
  destruct (Num.leb _ _); [exact Hp|]. cbn [negb].
  destruct (ratesCache a) as [|r]; [exact Hp|].
  destruct (r !! toCurrency_value a) as [rate|]; [|exact Hp].
  destruct (Num.truthy rate); cbn [negb]; [|exact Hp].
  apply panel_addToHistory. exact Hp.
Qed.

Lemma panel_step (ev : Event) (a : App) :
  panelShowsStorage a -> panelShowsStorage (step ev a).
Proof.
  intros Hp. destruct ev; cbn [step].
  - unfold startAutoUpdate.
    apply (panel_same (loadHistory a)); [| | |apply panel_loadHistory];
      now destruct (handleSet _).
  - unfold convertIfValid. destruct (isValidAmount _); [|exact Hp].
    now apply panel_performConversion.
  - now apply panel_performConversion.
  - unfold convertIfValid. destruct (isValidAmount _); [|exact Hp].
    now apply panel_performConversion.
  - unfold convertIfValid. destruct (isValidAmount _); [|exact Hp].
    now apply panel_performConversion.
  - unfold swapCurrencies. destruct (isValidAmount _); [|exact Hp].
    now apply panel_performConversion.
  - exact Hp.
  - unfold deleteAllHistory. destruct confirmed; [apply panel_loadHistory | exact Hp].
  - apply panel_loadHistory.
  - unfold toggleAutoUpdateMode.
    set (b := set_toggleAutoUpdate _ _ _).
    destruct (autoUpdateEnabled b); [|exact Hp].
    apply (panel_same a); [| | |exact Hp];
      unfold startAutoUpdate; now destruct (handleSet _).
  - unfold fireTimer. destruct (timers a !! h) as [t|]; [|exact Hp].
    set (b := if repeating t then a else clearInterval h a).
    assert (Hb : panelShowsStorage b)
      by (subst b; now destruct (repeating t)).
    destruct (callback t); [| |exact Hb].
    + apply (panel_same b); [| | |exact Hb];
        unfold updateStatus; destruct (lastUpdateTime b);
        try reflexivity; now destruct (_ <? 60).
    + unfold autoUpdateTick. destruct (autoUpdateEnabled b); [|exact Hb].
      cbn [setTimeout addTimer]. destruct (isValidAmount _); [|exact Hb].
      now apply panel_performConversion.
  - unfold settle. destruct (pending a !! i); [|exact Hp].
    destruct o as [|[] [| |rates]]; try exact Hp.
    cbn [fetchRatesOnce_resume].
    apply (panel_same a); [| | |exact Hp];
      unfold updateStatus; cbn; now destruct (_ <? 60).
  - now destruct (handleSet _).
Qed.

(** Once the page has started, the history panel always shows what is
    stored, whatever happens next: the stored entries and the "delete
    all" button, or "No conversions yet" and no button. *)
Theorem history_panel_shows_storage (evs : list Event) (a : App) :
  panelShowsStorage (run (DOMContentLoaded :: evs) a).
Proof.
  assert (Hrun : forall evs b, panelShowsStorage b -> panelShowsStorage (run evs b)).
  { clear. induction evs as [|ev evs IH]; intros b Hb; [exact Hb|].
    cbn. apply IH. now apply panel_step. }
  change (panelShowsStorage (run evs (step DOMContentLoaded a))).
  apply Hrun. cbn [step]. unfold startAutoUpdate.
  apply (panel_same (loadHistory a)); [| | |apply panel_loadHistory];
    now destruct (handleSet _).
Qed.

Lemma filter_id_idemp (id : Z) (l : list HistoryEntry) :
  List.filter (fun entry => negb (e_id entry =? id))
    (List.filter (fun entry => negb (e_id entry =? id)) l) =
  List.filter (fun entry => negb (e_id entry =? id)) l.
Proof.
  induction l as [|e l IH]; [reflexivity|]. cbn.
  destruct (negb (e_id e =? id)) eqn:E; [|exact IH].
  cbn. now rewrite E, IH.
Qed.

Lemma filter_id_comm (i j : Z) (l : list HistoryEntry) :
  List.filter (fun entry => negb (e_id entry =? i))
    (List.filter (fun entry => negb (e_id entry =? j)) l) =
  List.filter (fun entry => negb (e_id entry =? j))
    (List.filter (fun entry => negb (e_id entry =? i)) l).
Proof.
  induction l as [|e l IH]; [reflexivity|]. cbn.
  destruct (negb (e_id e =? j)) eqn:Ej, (negb (e_id e =? i)) eqn:Ei; cbn;
    rewrite ?Ej, ?Ei, ?IH; reflexivity.
Qed.

(** After [deleteHistoryItem] no stored entry has the deleted id and the
    list has not grown; deleting the same id again changes nothing, and
    two deletions leave the same history in either order. *)
Theorem deleteHistoryItem_composes (a : App) (i j : Z) :
  Forall (fun e => e_id e <> i) (getHistory (deleteHistoryItem i a)) /\
  (length (getHistory (deleteHistoryItem i a)) <= length (getHistory a))%nat /\
  deleteHistoryItem i (deleteHistoryItem i a) = deleteHistoryItem i a /\
  getHistory (deleteHistoryItem i (deleteHistoryItem j a)) =
    getHistory (deleteHistoryItem j (deleteHistoryItem i a)).
Proof.
  split; [|split; [|split]].
  - rewrite getHistory_deleteHistoryItem. apply List.Forall_forall.
    intros e He. apply List.filter_In in He as [_ He].
    destruct (Z.eqb_spec (e_id e) i); [discriminate | assumption].
  - rewrite getHistory_deleteHistoryItem. apply List.filter_length_le.
  - unfold deleteHistoryItem at 1 3.
    rewrite getHistory_deleteHistoryItem, filter_id_idemp.
    unfold loadHistory. rewrite !getHistory_setHistory.
    unfold deleteHistoryItem, loadHistory.
    destruct (map jsonEntry _); destruct (getHistory (setHistory _ a));
      reflexivity.
  - rewrite !getHistory_deleteHistoryItem. apply filter_id_comm.
Qed.

(** Appending an entry under an id that no stored entry has and deleting
    that id again gives back the first 49 stored entries: the whole
    previous history when it had fewer than 50 entries, and otherwise the
    history without its oldest entry, which the append had dropped. *)
Theorem append_then_delete (from to : string) (amt : number)
    (converted : string) (id : Z) (stamp : string) (a : App) :
  isDuplicate (head (getHistory a)) from to amt converted = false ->
  Forall (fun e => e_id e <> id) (getHistory a) ->
  let a' := deleteHistoryItem id (addToHistory from to amt converted id stamp a) in
  getHistory a' = take 49 (getHistory a) /\
  ((length (getHistory a) < 50)%nat -> getHistory a' = getHistory a).
Proof.
  intros Hd Hid a'.
  assert (Ha' : getHistory a' = take 49 (getHistory a)).
  { subst a'. rewrite getHistory_deleteHistoryItem, getHistory_addToHistory, Hd.
    cbn. rewrite Z.eqb_refl. cbn.
    apply filter_id_none. now apply Forall_take. }
  split; [exact Ha'|].
  intros Hlt. rewrite Ha'. apply take_ge. lia.
Qed.

Lemma append_then_delete_witness :
  let a := addToHistory "USD" "EUR" (Num.of_Z 1) "0.92" 7 "12:00:07" page in
  let a' := deleteHistoryItem 8
              (addToHistory "USD" "EUR" (Num.of_Z 2) "1.84" 8 "12:00:08" a) in
  map e_id (getHistory a) = [7] /\ getHistory a' = getHistory a.
Proof.
  cbv zeta.
  set (a := addToHistory "USD" "EUR" (Num.of_Z 1) "0.92" 7 "12:00:07" page).
  assert (Hh : getHistory a =
               [mkEntry 7 "USD" "EUR" (Some (Num.of_Z 1)) "0.92" "12:00:07"])
    by (vm_compute; reflexivity).
  destruct (append_then_delete "USD" "EUR" (Num.of_Z 2) "1.84" 8 "12:00:08" a)
    as [_ Hr].
  - rewrite Hh. vm_compute. reflexivity.
  - rewrite Hh. repeat constructor. discriminate.
  - split; [rewrite Hh; reflexivity|].
    apply Hr. rewrite Hh. cbn. lia.
Defined.

(** Declining the confirmation leaves everything as it was.  Confirming
    removes the stored history, shows the placeholder and hides the
    "delete all" button; the next conversion is then recorded whatever it
    is, also when it repeats the entry that was the most recent one. *)
Theorem deleteAllHistory_clears (a : App) :
  deleteAllHistory false a = a /\
  (let a' := deleteAllHistory true a in
   getHistory a' = [] /\
   historyList a' = HistoryText "No conversions yet" /\
   deleteAllBtn_display a' = "none" /\
   ratesCache a' = ratesCache a /\
   forall from to amt converted id stamp,
     getHistory (addToHistory from to amt converted id stamp a') =
       [jsonEntry (mkEntry id from to (Some amt) converted stamp)]).
Proof.
  split; [reflexivity|]. cbv zeta.
  assert (Hh : getHistory (deleteAllHistory true a) = [])
    by (unfold deleteAllHistory; now rewrite getHistory_loadHistory).
  split; [exact Hh|].
  split; [reflexivity|]. split; [reflexivity|]. split; [reflexivity|].
  intros from to amt converted id stamp.
  now rewrite getHistory_addToHistory, Hh.
Qed.

(** The finite case at work: 100 USD to EUR recorded twice in a row is
    stored once. *)
Lemma addToHistory_repeat_witness :
  let a1 := addToHistory "USD" "EUR" (Num.of_Z 100) "92.00" 1 "12:00:01" page in
  addToHistory "USD" "EUR" (Num.of_Z 100) "92.00" 2 "12:00:02" a1 = a1 /\
  length (getHistory a1) = 1%nat.
Proof.
  cbv zeta. split.
  - apply (addToHistory_repeat_finite "USD" "EUR" (Num.of_Z 100) "92.00"
             1 "12:00:01" 2 "12:00:02" page). reflexivity.
  - vm_compute. reflexivity.
Defined.

(** A differing tuple at work: the same conversion is stored again once
    another one has come in between. *)
Lemma addToHistory_differing_witness :
  let a1 := addToHistory "USD" "EUR" (Num.of_Z 100) "92.00" 1 "12:00:01" page in
  let a2 := addToHistory "USD" "EUR" (Num.of_Z 50) "46.00" 2 "12:00:02" a1 in
  let a3 := addToHistory "USD" "EUR" (Num.of_Z 100) "92.00" 3 "12:00:03" a2 in
  map e_converted (getHistory a3) = ["92.00"; "46.00"; "92.00"].
Proof.
  cbv zeta.
  set (a2 := addToHistory "USD" "EUR" (Num.of_Z 50) "46.00" 2 "12:00:02" _).
  rewrite (addToHistory_differing_prepended "USD" "EUR" (Num.of_Z 100) "92.00"
             3 "12:00:03" a2).
  - vm_compute. reflexivity.
  - intros e He. right. right. right.
    assert (Hc : e_converted <$> head (getHistory a2) = Some "46.00")
      by (vm_compute; reflexivity).
    rewrite He in Hc. cbn in Hc. injection Hc as ->. discriminate.
Defined.

(** ** The form *)

Lemma form_performConversion (id : Z) (stamp : string) (a : App) :
  amount_value (performConversion id stamp a) = amount_value a /\
  fromCurrency_value (performConversion id stamp a) = fromCurrency_value a /\
  toCurrency_value (performConversion id stamp a) = toCurrency_value a.
Proof.
  pose proof (performConversion_frame id stamp a) as H.
  unfold onlyConversionFields in H. now rewrite H.
Qed.

Lemma exchangeRate_success (id : Z) (stamp : string) (a : App) (rate : number) :
  Num.ltb Num.zero (Str.parseFloat (amount_value a)) = true ->
  lookupRate a = Some rate -> Num.truthy rate = true ->
  exchangeRate_textContent (performConversion id stamp a) =
    "1 " ++ fromCurrency_value a ++ " = " ++ Str.toFixed rate 4 ++ " "
    ++ toCurrency_value a.
Proof.
  intros Hpos Hl Ht.
  rewrite (performConversion_valid a id stamp Hpos), Hl, Ht. cbv zeta.
  now rewrite (proj1 (proj2 (display_addToHistory _ _ _ _ _ _ _))).
Qed.

(** [swapCurrencies] exchanges the two currencies, sends a request for
    the new base and converts in the same turn, so with the cache of the
    old base: the rate applied is the one the cache holds for the old
    base currency itself.  The amount and the cache are not changed, and
    swapping twice gives back the original pair. *)
Theorem swapCurrencies_converts_with_old_cache
    (a : App) (id : Z) (stamp : string) :
  let a' := swapCurrencies id stamp a in
  fromCurrency_value a' = toCurrency_value a /\
  toCurrency_value a' = fromCurrency_value a /\
  amount_value a' = amount_value a /\
  ratesCache a' = ratesCache a /\
  pending a' = (pending a ++ [(API_URL ++ toCurrency_value a)%string])%list /\
  (forall id' stamp',
     fromCurrency_value (swapCurrencies id' stamp' a') = fromCurrency_value a /\
     toCurrency_value (swapCurrencies id' stamp' a') = toCurrency_value a) /\
  (forall r rate,
     isValidAmount a = true ->
     ratesCache a = Rates r -> r !! fromCurrency_value a = Some rate ->
     Num.truthy rate = true ->
     resultAmount_textContent a' =
       Str.toFixed (Num.mul (Str.parseFloat (amount_value a)) rate) 2 /\
     exchangeRate_textContent a' =
       "1 " ++ toCurrency_value a ++ " = " ++ Str.toFixed rate 4 ++ " "
       ++ fromCurrency_value a).
Proof.
  assert (Hform : forall i s b,
            fromCurrency_value (swapCurrencies i s b) = toCurrency_value b /\
            toCurrency_value (swapCurrencies i s b) = fromCurrency_value b /\
            amount_value (swapCurrencies i s b) = amount_value b /\
            pending (swapCurrencies i s b) =
              (pending b ++ [(API_URL ++ toCurrency_value b)%string])%list).
  { intros i s b. unfold swapCurrencies.
    set (c := fetchRatesOnce _).
    destruct (isValidAmount c); [|now repeat split].
    destruct (form_performConversion i s c) as (-> & -> & ->).
    pose proof (scheduler_performConversion i s c) as Hs.
    unfold scheduler in Hs. repeat split. now inversion Hs. }
  intros a'. destruct (Hform id stamp a) as (Hf & Ht & Hv & Hp).
  split; [exact Hf|]. split; [exact Ht|]. split; [exact Hv|].
  split; [apply ratesCache_swapCurrencies|]. split; [exact Hp|]. split.
  - intros id' stamp'. destruct (Hform id' stamp' a') as (-> & -> & _).
    now split.
  - intros r rate Hvalid Hc Hl Htr. subst a'. unfold swapCurrencies.
    set (b := fetchRatesOnce _).
    change (isValidAmount b) with (isValidAmount a). rewrite Hvalid.
    assert (Hpos : Num.ltb Num.zero (Str.parseFloat (amount_value b)) = true)
      by now apply isValidAmount_positive.
    assert (Hlb : lookupRate b = Some rate).
    { unfold lookupRate.
      change (ratesCache b) with (ratesCache a).
      change (toCurrency_value b) with (fromCurrency_value a).
      now rewrite Hc. }
    split.
    + now rewrite (resultAmount_success id stamp b rate Hpos Hlb Htr).
    + now rewrite (exchangeRate_success id stamp b rate Hpos Hlb Htr).
Qed.

(** Swapping at work: 100 USD to EUR with the USD rates in the cache.
    After the swap the form reads EUR to USD, and the result shown is
    100.00 at "1 EUR = 1.0000 USD", the cached rate of USD against itself. *)
Lemma swapCurrencies_witness_usd_eur :
  let a := set_ratesCache
             (Rates {[ "USD" := Num.of_Z 1; "EUR" := Str.parseFloat "0.92" ]})
             (withAmount "100" page) in
  let a' := swapCurrencies 1 "12:00:01" a in
  fromCurrency_value a' = "EUR" /\ toCurrency_value a' = "USD" /\
  resultAmount_textContent a' = "100.00" /\
  exchangeRate_textContent a' = "1 EUR = 1.0000 USD".
Proof.
  cbv zeta.
  set (a := set_ratesCache _ _).
  destruct (swapCurrencies_converts_with_old_cache a 1 "12:00:01")
    as (Hf & Ht & _ & _ & _ & _ & Hr).
  cbv zeta in Hf, Ht, Hr.
  destruct (Hr {[ "USD" := Num.of_Z 1; "EUR" := Str.parseFloat "0.92" ]}
              (Num.of_Z 1)) as [H1 H2];
    try (vm_compute; reflexivity).
  split; [rewrite Hf; reflexivity|]. split; [rewrite Ht; reflexivity|].
  split; [rewrite H1; vm_compute; reflexivity|].
  rewrite H2. vm_compute. reflexivity.
Defined.

(** [clearForm] empties the amount and hides the result and the error,
    keeping the stored history, the cache and the text of the last result.
    With the form cleared a conversion asks for an amount, and the ticks of
    the auto-update no longer convert: they leave the result, the history
    and the errors shown as they are. *)
Theorem clearForm_stops_conversions (a : App) (id : Z) (stamp : string) :
  let a' := clearForm a in
  amount_value a' = "" /\
  resultContainer_show a' = false /\ amountError_show a' = false /\
  resultAmount_textContent a' = resultAmount_textContent a /\
  getHistory a' = getHistory a /\ ratesCache a' = ratesCache a /\
  isValidAmount a' = false /\
  performConversion id stamp a' = showError "Please enter an amount" a' /\
  (let t := autoUpdateTick id stamp a' in
   errorsShown t = errorsShown a /\ getHistory t = getHistory a /\
   resultContainer_show t = false).
Proof.
  cbv zeta. repeat split.
  - unfold autoUpdateTick. now destruct (autoUpdateEnabled _).
  - unfold autoUpdateTick. now destruct (autoUpdateEnabled _).
  - unfold autoUpdateTick. now destruct (autoUpdateEnabled _).
Qed.

(** ** Responses are applied as they arrive *)

(** Each successful response replaces the cache when it arrives, whatever
    the order in which the requests were sent: when the newer of two
    requests in flight is answered first and the older one afterwards,
    the cache ends with the rates of the older request. *)
Theorem responses_apply_in_arrival_order
    (a : App) (older newer : string) (rest : list string)
    (ratesOlder ratesNewer : Cache) (c1 c2 : Clock) :
  pending a = older :: newer :: rest ->
  let a1 := settle 1 (Response true (JsonData ratesNewer)) c1 a in
  let a2 := settle 0 (Response true (JsonData ratesOlder)) c2 a1 in
  ratesCache a1 = ratesNewer /\ pending a1 = older :: rest /\
  ratesCache a2 = ratesOlder /\ pending a2 = rest /\
  lastUpdateTime a2 = Some (now c2).
Proof.
  intros Hp a1 a2.
  assert (H1 : ratesCache a1 = ratesNewer /\ pending a1 = older :: rest).
  { subst a1. unfold settle. rewrite Hp. cbn [lookup list_lookup].
    cbn [fetchRatesOnce_resume]. unfold updateStatus. cbn.
    destruct (_ <? 60); now split. }
  destruct H1 as [Hc1 Hp1]. split; [exact Hc1|]. split; [exact Hp1|].
  subst a2. unfold settle. rewrite Hp1. cbn [lookup list_lookup].
  cbn [fetchRatesOnce_resume]. unfold updateStatus. cbn.
  destruct (_ <? 60); now repeat split.
Qed.

(** Arrival order at work: the user swaps USD and EUR while the request
    for USD is still in flight; the EUR rates arrive first, the USD rates
    last, and the cache ends with the USD rates although the form reads
    EUR to USD. *)
Lemma responses_witness_swap_race :
  let a := swapCurrencies 1 "12:00:01" (fetchRatesOnce page) in
  let usd := Rates {[ "EUR" := Str.parseFloat "0.92" ]} in
  let eur := Rates {[ "USD" := Str.parseFloat "1.09" ]} in
  let a2 := settle 0 (Response true (JsonData usd)) (mkClock 3 3 "12:00:03")
              (settle 1 (Response true (JsonData eur)) (mkClock 2 2 "12:00:02") a) in
  fromCurrency_value a2 = "EUR" /\ ratesCache a2 = usd /\ pending a2 = [].
Proof.
  cbv zeta.
  destruct (responses_apply_in_arrival_order
              (swapCurrencies 1 "12:00:01" (fetchRatesOnce page))
              "https://api.exchangerate-api.com/v4/latest/USD"
              "https://api.exchangerate-api.com/v4/latest/EUR" []
              (Rates {[ "EUR" := Str.parseFloat "0.92" ]})
              (Rates {[ "USD" := Str.parseFloat "1.09" ]})
              (mkClock 2 2 "12:00:02") (mkClock 3 3 "12:00:03"))
    as (_ & _ & Hc & Hp & _); [vm_compute; reflexivity|].
  cbv zeta in Hc, Hp.
  split; [vm_compute; reflexivity|]. split; [exact Hc | exact Hp].
Defined.

(** ** The About dialog *)

Lemma dialogStep_coherent (ev : DialogEvent) (d : Dialog) :
  dialogCoherent d -> dialogCoherent (dialogStep ev d).
Proof.
  intros Hd. destruct ev; cbn [dialogStep].
  - split; [reflexivity|]. now split.
  - split; [reflexivity|]. split; discriminate.
  - unfold keydownListener. destruct (_ && _); [|exact Hd].
    split; [reflexivity|]. split; discriminate.
Qed.

(** The dialog and its overlay are always shown or hidden together, and
    the page cannot scroll exactly while the dialog is shown, whatever
    the sequence of clicks and keys; Escape leaves the dialog closed, and
    any other key changes nothing. *)
Theorem dialog_stays_coherent (evs : list DialogEvent) (d : Dialog) :
  dialogCoherent d ->
  dialogCoherent (dialogRun evs d) /\
  aboutModal_show (dialogStep (KeyDown "Escape") (dialogRun evs d)) = false /\
  (forall key, key <> "Escape" ->
     dialogStep (KeyDown key) (dialogRun evs d) = dialogRun evs d).
Proof.
  intros Hd.
  assert (Hrun : dialogCoherent (dialogRun evs d)).
  { revert d Hd. induction evs as [|ev evs IH]; intros d Hd; [exact Hd|].
    cbn. apply IH. now apply dialogStep_coherent. }
  split; [exact Hrun|]. split.
  - cbn [dialogStep]. unfold keydownListener.
    rewrite String.eqb_refl. cbn [andb].
    destruct (aboutModal_show (dialogRun evs d)) eqn:E; [reflexivity | exact E].
  - intros key Hk. cbn [dialogStep]. unfold keydownListener.
    apply String.eqb_neq in Hk. now rewrite Hk.
Qed.

Lemma dialog_witness_open_escape :
  let d := mkDialog false false "" in
  dialogRun [AboutClick] d = mkDialog true true "hidden" /\
  dialogRun [AboutClick; KeyDown "Enter"; KeyDown "Escape"] d =
    mkDialog false false "auto" /\
  dialogCoherent (dialogRun [AboutClick; KeyDown "Escape"; AboutClick] d).
Proof.
  cbv zeta.
  destruct (dialog_stays_coherent [AboutClick; KeyDown "Escape"; AboutClick]
              (mkDialog false false "")) as (H & _ & _).
  - split; [reflexivity|]. split; discriminate.
  - split; [reflexivity|]. split; [reflexivity | exact H].
Defined.

(** ** Conversions that repeat, and a change of the base currency *)

Lemma displayResult_after_addToHistory
    converted rate from to amt from' to' amt' converted' id stamp (a : App) :
  let a1 := addToHistory from' to' amt' converted' id stamp
              (displayResult converted rate from to amt a) in
  displayResult converted rate from to amt a1 = a1.
Proof.
  cbv zeta. unfold addToHistory.
  destruct (isDuplicate _ _ _ _ _); [now destruct a|].
  unfold loadHistory. destruct (getHistory _); now destruct a.
Qed.

(** Converting again with the same form and the same cache changes
    nothing when the amount is finite: the display is rewritten with the
    same texts and the history entry is recognised as a duplicate.  This
    is what every tick of the auto-update does while the rates stay the
    same. *)
Theorem repeated_conversion_changes_nothing
    (a : App) (id id' : Z) (stamp stamp' : string) :
  conversionSucceeds id stamp a ->
  Num.isFinite (Str.parseFloat (amount_value a)) = true ->
  performConversion id' stamp' (performConversion id stamp a) =
    performConversion id stamp a.
Proof.
  intros Hs Hfin.
  apply conversionSucceeds_iff in Hs as (Hpos & rate & Hl & Ht).
  set (a1 := performConversion id stamp a).
  destruct (form_performConversion id stamp a) as (Hv & Hf & Hto). fold a1 in Hv, Hf, Hto.
  assert (Hl1 : lookupRate a1 = Some rate).
  { unfold lookupRate. subst a1.
    now rewrite ratesCache_performConversion, Hto. }
  assert (Hpos1 : Num.ltb Num.zero (Str.parseFloat (amount_value a1)) = true)
    by now rewrite Hv.
  rewrite (performConversion_valid a1 id' stamp' Hpos1), Hl1, Ht. cbv zeta.
  rewrite Hv, Hf, Hto.
  set (amt := Str.parseFloat (amount_value a)) in *.
  set (converted := Str.toFixed (Num.mul amt rate) 2).
  assert (Ha1 : a1 = addToHistory (fromCurrency_value a) (toCurrency_value a)
                       amt converted id stamp
                       (displayResult converted rate (fromCurrency_value a)
                          (toCurrency_value a) amt a)).
  { subst a1. rewrite (performConversion_valid a id stamp Hpos), Hl, Ht.
    reflexivity. }
  assert (Hd : displayResult converted rate (fromCurrency_value a)
                 (toCurrency_value a) amt a1 = a1).
  { rewrite Ha1. apply displayResult_after_addToHistory. }
  rewrite Hd. unfold addToHistory at 1.
  replace (isDuplicate (hd_error (getHistory a1)) (fromCurrency_value a)
             (toCurrency_value a) amt converted) with true; [reflexivity|].
  symmetry. rewrite Ha1. now apply addToHistory_then_duplicate.
Qed.

Lemma repeated_conversion_witness_tick :
  let a := withRate "EUR" "0.92" (withAmount "100" page) in
  let a1 := performConversion 1 "12:00:01" a in
  performConversion 5001 "12:00:06" a1 = a1 /\
  map e_id (getHistory a1) = [1].
Proof.
  cbv zeta. split.
  - apply (repeated_conversion_changes_nothing
             (withRate "EUR" "0.92" (withAmount "100" page))
             1 5001 "12:00:01" "12:00:06"); vm_compute; reflexivity.
  - vm_compute. reflexivity.
Defined.

(** Changing the base currency sends no request and leaves the cache as
    it is: the conversion that follows applies the rate cached for the
    target currency under the previous base, and only the label of the
    rate line names the new base. *)
Theorem fromCurrencyChange_keeps_old_rates
    (a : App) (value : string) (c : Clock) :
  let a' := step (FromCurrencyChange value c) a in
  fromCurrency_value a' = value /\
  toCurrency_value a' = toCurrency_value a /\
  pending a' = pending a /\
  ratesCache a' = ratesCache a /\
  (forall rate,
     isValidAmount a = true -> lookupRate a = Some rate ->
     Num.truthy rate = true ->
     resultAmount_textContent a' =
       Str.toFixed (Num.mul (Str.parseFloat (amount_value a)) rate) 2 /\
     exchangeRate_textContent a' =
       "1 " ++ value ++ " = " ++ Str.toFixed rate 4 ++ " " ++ toCurrency_value a).
Proof.
  cbv zeta. cbn [step]. unfold convertIfValid.
  set (b := set_currencies value (toCurrency_value a) a).
  change (isValidAmount b) with (isValidAmount a).
  destruct (isValidAmount a) eqn:Hv.
  - destruct (form_performConversion (now c) (localeString c) b) as (_ & -> & ->).
    pose proof (scheduler_performConversion (now c) (localeString c) b) as Hs.
    unfold scheduler in Hs.
    split; [reflexivity|]. split; [reflexivity|].
    split; [now inversion Hs|].
    split; [now rewrite ratesCache_performConversion|].
    intros rate _ Hl Ht.
    assert (Hpos : Num.ltb Num.zero (Str.parseFloat (amount_value b)) = true)
      by now apply isValidAmount_positive.
    split.
    + now rewrite (resultAmount_success _ _ b rate Hpos Hl Ht).
    + now rewrite (exchangeRate_success _ _ b rate Hpos Hl Ht).
  - split; [reflexivity|]. split; [reflexivity|].
    split; [reflexivity|]. split; [reflexivity|].
    intros rate Hf. discriminate.
Qed.

(** A change of base at work: with the USD rates cached, choosing GBP as
    the base shows 92.00 for 100 GBP, at "1 GBP = 0.9200 EUR". *)
Lemma fromCurrencyChange_witness_gbp :
  let a := withRate "EUR" "0.92" (withAmount "100" page) in
  let a' := step (FromCurrencyChange "GBP" (mkClock 1 1 "12:00:01")) a in
  pending a' = [] /\
  resultAmount_textContent a' = "92.00" /\
  exchangeRate_textContent a' = "1 GBP = 0.9200 EUR".
Proof.
  cbv zeta.
  destruct (fromCurrencyChange_keeps_old_rates
              (withRate "EUR" "0.92" (withAmount "100" page)) "GBP"
              (mkClock 1 1 "12:00:01")) as (_ & _ & Hp & _ & Hr).
  cbv zeta in Hp, Hr.
  destruct (Hr (Str.parseFloat "0.92")) as [H1 H2];
    try (vm_compute; reflexivity).
  split; [rewrite Hp; reflexivity|].
  split; [rewrite H1; vm_compute; reflexivity|].
  rewrite H2. vm_compute. reflexivity.
Defined.
